(** * ion-python-benchmark-cli: the read micro-benchmark and its report

    A shallow embedding of [amazon/ionbenchmark/ion_python_benchmark_cli.py]
    and [amazon/ionbenchmark/API.py].

    - Python [float] is IEEE 754 binary64: the [spec_float] of the Standard
      Library at precision 53 and maximal exponent 1024, with the library's
      own round-to-nearest-even operations [SFsub], [SFdiv], [SFmul].
    - Python [int] is [Z]; [str] is [string].
    - The interpreter's surroundings (the file system, the clock read by
      [timeit.timeit], the allocation tracker) are a [World] of oracles; the
      calls the program makes are recorded, in order, in a trace of [event]s.
    - Exceptions are values: a computation returns [Ok v] or [Raise e]. *)

From Stdlib Require Import ZArith List String Ascii Bool Lia QArith Qpower.
From Stdlib Require Import Floats.SpecFloat.
From Stdlib Require Import Numbers.DecimalString.
Import ListNotations.

Open Scope Z_scope.
Open Scope string_scope.

(** ** Python values that the program handles *)

(** binary64 *)
Definition float : Type := spec_float.

Module Binary64.

Definition prec : Z := 53.
Definition emax : Z := 1024.

Definition zero : float := S754_zero false.
Definition one : float := S754_finite false 4503599627370496 (-52).

Definition sub (x y : float) : float := SFsub prec emax x y.
Definition div (x y : float) : float := SFdiv prec emax x y.
Definition mul (x y : float) : float := SFmul prec emax x y.
Definition ltb (x y : float) : bool := SFltb x y.
Definition leb (x y : float) : bool := SFleb x y.
Definition eqb (x y : float) : bool := SFeqb x y.

(** [float(n)] for an [int] that fits: the nearest binary64. *)
Definition of_Z (n : Z) : float := binary_normalize prec emax n 0 false.

(** A float the hardware can hold: canonical mantissa, exponent in range. *)
Definition valid (x : float) : bool := valid_binary prec emax x.

Definition is_finite (x : float) : bool :=
  match x with
  | S754_zero _ | S754_finite _ _ _ => true
  | _ => false
  end.

Definition is_zero (x : float) : bool :=
  match x with
  | S754_zero _ => true
  | _ => false
  end.

(** The rational a finite float stands for. *)
Definition value (x : float) : option Q :=
  match x with
  | S754_zero _ => Some 0%Q
  | S754_finite s m e =>
      let q := (inject_Z (Zpos m) * Qpower 2 e)%Q in
      Some (if s then Qopp q else q)
  | _ => None
  end.

End Binary64.

(** A cell of the report table: what [tabulate] is handed. *)
Inductive pyval : Type :=
| PyStr (s : string)
| PyInt (n : Z).

(** The exceptions the program can end with. *)
Inductive exn : Type :=
| Exception (msg : string)   (* raise Exception(msg), the program's own *)
| ValueError                 (* int() of a string that is no integer; a path with a null byte *)
| ZeroDivisionError          (* x / 0 *)
| OverflowError              (* an int too large for a float *)
| TypeError                  (* unpacking None *)
| OSError                    (* stat() of a path that cannot be read *)
| TimedCodeError.            (* the statement run by timeit raised *)

Inductive result (A : Type) : Type :=
| Ok (a : A)
| Raise (e : exn).
Arguments Ok {A} a.
Arguments Raise {A} e.

(** ** The surroundings *)

Inductive event : Type :=
| EStat (file : string)
| ETimeit (stmt setup : string) (number : Z)
| ETraceStart
| EGetTraced
| ETraceStop
| EPrintTable (table : list (list pyval))
| EPrint (s : string).

Record World : Type := {
  (* os.stat(path).st_size as the file system answers; None when it fails *)
  os_stat_size : string -> option Z;
  (* what the n-th call of timeit.timeit returns; None when the timed code raises *)
  timeit_result : nat -> option float;
  (* tracemalloc.get_traced_memory()[1], in bytes *)
  traced_peak : Z
}.

Record state : Type := {
  trace : list event;
  timeit_calls : nat
}.

Definition initial : state := {| trace := []; timeit_calls := 0 |}.

(** A path that holds a null byte: [os.stat] refuses it with
    ValueError('embedded null byte') before it asks the file system. *)
Fixpoint has_nul (path : string) : bool :=
  match path with
  | EmptyString => false
  | String c rest => (nat_of_ascii c =? 0)%nat || has_nul rest
  end.

(** [Path(file).stat().st_size], or [None] when the call raises. *)
Definition st_size (w : World) (file : string) : option Z :=
  if has_nul file then None else os_stat_size w file.

(** ** A state and exception monad *)

Definition M (A : Type) : Type := state -> result A * state.

Definition ret {A} (a : A) : M A := fun s => (Ok a, s).

Definition raise {A} (e : exn) : M A := fun s => (Raise e, s).

Definition bind {A B} (c : M A) (k : A -> M B) : M B :=
  fun s =>
    match c s with
    | (Ok a, s') => k a s'
    | (Raise e, s') => (Raise e, s')
    end.

Definition lift {A} (r : result A) : M A := fun s => (r, s).

Definition emit (ev : event) : M unit :=
  fun s => (Ok tt, {| trace := trace s ++ [ev]; timeit_calls := timeit_calls s |}).

Declare Scope py_scope.
Delimit Scope py_scope with py.
Notation "x <- c ;; k" := (bind c (fun x => k))
  (at level 100, c at next level, right associativity) : py_scope.
Notation "c ;;; k" := (bind c (fun _ => k))
  (at level 100, right associativity) : py_scope.
Open Scope py_scope.

(** ** Built-ins of the language *)

Module Py.

Import Binary64.

(** [not s] for a string or [None]: empty and [None] are falsy. *)
Definition falsy (o : option string) : bool :=
  match o with
  | None => true
  | Some EmptyString => true
  | Some _ => false
  end.

(** [o == s] for a string or [None] against a string. *)
Definition str_eqb (o : option string) (s : string) : bool :=
  match o with
  | Some a => String.eqb a s
  | None => false
  end.

(** [str(o)] as an f-string prints it. *)
Definition str (o : option string) : string :=
  match o with
  | Some a => a
  | None => "None"
  end.

(** [str(b)] as an f-string prints it. *)
Definition str_of_bool (b : bool) : string := if b then "True" else "False".

Definition dquote : string := String (ascii_of_nat 34) EmptyString.

(** *** [int(s)] on ASCII text: blanks around, a sign, digits with single
    underscores between them. *)

Definition is_blank (c : ascii) : bool :=
  let n := nat_of_ascii c in
  ((9 <=? n) && (n <=? 13))%nat || (n =? 32)%nat.

Fixpoint lstrip (s : string) : string :=
  match s with
  | String c r => if is_blank c then lstrip r else s
  | EmptyString => EmptyString
  end.

Fixpoint rev_string (s acc : string) : string :=
  match s with
  | String c r => rev_string r (String c acc)
  | EmptyString => acc
  end.

Definition strip (s : string) : string :=
  rev_string (lstrip (rev_string (lstrip s) EmptyString)) EmptyString.

Definition digit_of (c : ascii) : option Z :=
  let n := nat_of_ascii c in
  if ((48 <=? n) && (n <=? 57))%nat then Some (Z.of_nat n - 48) else None.

(** [after_digit]: the previous character was a digit, so an underscore
    may come next; the text must end on a digit. *)
Fixpoint digits (s : string) (acc : Z) (after_digit : bool) : option Z :=
  match s with
  | EmptyString => if after_digit then Some acc else None
  | String c r =>
      match digit_of c with
      | Some d => digits r (10 * acc + d) true
      | None =>
          if (nat_of_ascii c =? 95)%nat && after_digit
          then match r with
               | EmptyString => None
               | String c' _ =>
                   match digit_of c' with
                   | Some _ => digits r acc false
                   | None => None
                   end
               end
          else None
      end
  end.

Definition int (s : string) : result Z :=
  let body (t : string) (neg : bool) :=
    match digits t 0 false with
    | Some n => Ok (if neg then - n else n)
    | None => Raise ValueError
    end in
  match strip s with
  | String "-" t => body t true
  | String "+" t => body t false
  | t => body t false
  end.

(** *** True division *)

(** [a / b] on two ints: the exact quotient rounded once to binary64. *)
Definition int_truediv (a b : Z) : result float :=
  if Z.eqb b 0 then Raise ZeroDivisionError
  else if Z.eqb a 0 then Ok zero
  else
    let '(q, e, l) := SFdiv_core_binary prec emax (Z.abs a) 0 (Z.abs b) 0 in
    match binary_round_aux prec emax (xorb (Z.ltb a 0) (Z.ltb b 0)) q e l with
    | S754_infinity _ => Raise OverflowError
    | r => Ok r
    end.

(** [x / y] on floats. *)
Definition float_truediv (x y : float) : result float :=
  if is_zero y then Raise ZeroDivisionError else Ok (div x y).

(** [x / n] for a float and an int: the int becomes a float first. *)
Definition float_truediv_int (x : float) (n : Z) : result float :=
  match of_Z n with
  | S754_infinity _ => Raise OverflowError
  | y => float_truediv x y
  end.

(** [x > 0] for a float and the int 0. *)
Definition gt0 (x : float) : bool := ltb zero x.

(** *** Number formatting

    [str.format] prints the exact value of the float, rounded to the asked
    number of decimal digits, ties to even. *)

Definition dec (n : Z) : string := NilEmpty.string_of_uint (N.to_uint (Z.to_N n)).

Definition two_digits (n : Z) : string :=
  if Z.ltb n 10 then "0" ++ dec n else dec n.

(** [m * 2^e] as a fraction. *)
Definition fraction (m : positive) (e : Z) : Z * Z :=
  if Z.leb 0 e then (Zpos m * 2 ^ e, 1) else (Zpos m, 2 ^ (- e)).

(** [n/d * 10^k] as a fraction. *)
Definition scale10 (n d k : Z) : Z * Z :=
  if Z.leb 0 k then (n * 10 ^ k, d) else (n, d * 10 ^ (- k)).

Definition round_half_even (n d : Z) : Z :=
  let q := n / d in
  match Z.compare (2 * (n mod d)) d with
  | Lt => q
  | Gt => q + 1
  | Eq => if Z.even q then q else q + 1
  end.

(** The [k] with [10^k <= n/d < 10^(k+1)]: the binary logarithm places it
    within one of [k0]. *)
Definition decimal_exponent (n d : Z) : Z :=
  let k0 := ((Z.log2 n - Z.log2 d) * 30103) / 100000 in
  let reaches k := let '(a, b) := scale10 n d (- k) in Z.leb b a in
  if reaches (k0 + 1) then k0 + 1 else if reaches k0 then k0 else k0 - 1.

Definition sci2 (n d : Z) : string :=
  let k := decimal_exponent n d in
  let '(a, b) := scale10 n d (2 - k) in
  let m := round_half_even a b in
  let '(m, k) := if Z.eqb m 1000 then (100, k + 1) else (m, k) in
  dec (m / 100) ++ "." ++ two_digits (m mod 100) ++ "e"
    ++ (if Z.ltb k 0 then "-" else "+") ++ two_digits (Z.abs k).

Definition fixed2 (n d : Z) : string :=
  let m := round_half_even (n * 100) d in
  dec (m / 100) ++ "." ++ two_digits (m mod 100).

Definition sign_prefix (s : bool) : string := if s then "-" else EmptyString.

(** ["{:.2e}".format(x)] *)
Definition format_2e (x : float) : string :=
  match x with
  | S754_nan => "nan"
  | S754_infinity s => sign_prefix s ++ "inf"
  | S754_zero s => sign_prefix s ++ "0.00e+00"
  | S754_finite s m e =>
      let '(n, d) := fraction m e in sign_prefix s ++ sci2 n d
  end.

(** ["{:.2%}".format(x)]: the float is multiplied by 100, printed with two
    decimals, and followed by a percent sign. *)
Definition format_2pct (x : float) : string :=
  match mul x (of_Z 100) with
  | S754_nan => "nan%"
  | S754_infinity s => sign_prefix s ++ "inf%"
  | S754_zero s => sign_prefix s ++ "0.00%"
  | S754_finite s m e =>
      let '(n, d) := fraction m e in sign_prefix s ++ fixed2 n d ++ "%"
  end.

End Py.

(** ** API.py *)

Inductive API : Type := SIMPLE_ION | ITERATOR | NON_BLOCKING.

Definition API_value (a : API) : string :=
  match a with
  | SIMPLE_ION => "simpleIon"
  | ITERATOR => "iterator"
  | NON_BLOCKING => "nonBlocking"
  end.

(** ** ion_python_benchmark_cli.py *)

Import Binary64.

Definition BYTES_TO_MB : Z := 1024 * 1024.

Definition generate_simpleion_load_test_code
    (file : string) (single_value emit_bare_values : bool) : string :=
  "with open(" ++ Py.dquote ++ file ++ Py.dquote ++ ", " ++ Py.dquote ++ "br" ++ Py.dquote
    ++ ") as fp: ion.load(fp, single_value=" ++ Py.str_of_bool single_value
    ++ ", emit_bare_values=" ++ Py.str_of_bool emit_bare_values ++ ");".

Definition generate_simpleion_load_setup (gc : bool) : string :=
  let rtn := "import amazon.ion.simpleion as ion" in
  if gc then rtn ++ "; import gc; gc.enable();" else rtn.

(** What a micro-benchmark function hands back: the four numbers, or [None]
    from a body that is only [pass]. *)
Definition measurements : Type := option (float * float * float * float).

Section Program.

Variable w : World.

(** [Path(file).stat().st_size]: ValueError for a path with a null byte,
    OSError when the file system cannot stat the path. *)
Definition stat (file : string) : M Z :=
  emit (EStat file) ;;;
  match st_size w file with
  | Some n => ret n
  | None => if has_nul file then raise ValueError else raise OSError
  end.

(** [timeit.timeit(stmt=..., setup=..., number=...)]: the elapsed seconds the
    clock reports for this call. *)
Definition timeit (stmt setup : string) (number : Z) : M float :=
  emit (ETimeit stmt setup number) ;;;
  fun s =>
    let s' := {| trace := trace s; timeit_calls := S (timeit_calls s) |} in
    match timeit_result w (timeit_calls s) with
    | Some t => (Ok t, s')
    | None => (Raise TimedCodeError, s')
    end.

Definition read_micro_benchmark_simpleion
    (iterations warmups : Z) (file : string) : M measurements :=
  size <- stat file ;;
  file_size <- lift (Py.int_truediv size BYTES_TO_MB) ;;

  let setup_without_gc := generate_simpleion_load_setup false in
  let setup_with_gc := generate_simpleion_load_setup true in

  let test_code := generate_simpleion_load_test_code file false false in
  let test_code_without_wrapper := generate_simpleion_load_test_code file false true in

  (* warm up *)
  timeit test_code setup_with_gc warmups ;;;
  timeit test_code setup_without_gc warmups ;;;
  timeit test_code_without_wrapper setup_without_gc warmups ;;;

  (* iteration *)
  t1 <- timeit test_code setup_with_gc iterations ;;
  result_with_gc <- lift (Py.float_truediv_int t1 iterations) ;;
  t2 <- timeit test_code setup_without_gc iterations ;;
  result_without_gc <- lift (Py.float_truediv_int t2 iterations) ;;
  t3 <- timeit test_code_without_wrapper setup_without_gc iterations ;;
  result_with_raw_value <- lift (Py.float_truediv_int t3 iterations) ;;

  ret (Some (file_size, result_with_gc, result_without_gc, result_with_raw_value)).

Definition read_micro_benchmark_iterator
    (iterations warmups : Z) (file : string) : M measurements :=
  ret None.

Definition read_micro_benchmark_non_blocking
    (iterations warmups : Z) (file : string) : M measurements :=
  ret None.

(** The function object handed to [read_micro_benchmark_and_profiling]. *)
Inductive micro_benchmark : Type :=
| Simpleion
| Iterator
| NonBlocking.

Definition call (f : micro_benchmark) : Z -> Z -> string -> M measurements :=
  match f with
  | Simpleion => read_micro_benchmark_simpleion
  | Iterator => read_micro_benchmark_iterator
  | NonBlocking => read_micro_benchmark_non_blocking
  end.

Definition header : list pyval :=
  [PyStr "file_size (MB)"; PyStr "total_time (s)"; PyStr "execution_time (s)";
   PyStr "garbage_collection_time (s)"; PyStr "garbage_collection_time/total_time (%)";
   PyStr "conversion_time (s)"; PyStr "conversion_time/total_time (%)";
   PyStr "memory_usage_peak (MB)"].

Definition read_generate_report
    (file_size total_time execution_time garbage_collection_time gc_time_percentage
     conversion_time wrapper_time_percentage memory_usage_peak : pyval) : M unit :=
  let table :=
    [header;
     [file_size; total_time; execution_time; garbage_collection_time; gc_time_percentage;
      conversion_time; wrapper_time_percentage; memory_usage_peak]] in
  emit (EPrintTable table).

(** ["{:.2e}".format(t) if t > 0 else 0] *)
Definition time_cell (t : float) : pyval :=
  if Py.gt0 t then PyStr (Py.format_2e t) else PyInt 0.

(** ["{:.2%}".format(t / total) if t > 0 else "0%"]; the division is only
    evaluated on the first branch. *)
Definition percentage_cell (t total : float) : result pyval :=
  if Py.gt0 t then
    match Py.float_truediv t total with
    | Ok r => Ok (PyStr (Py.format_2pct r))
    | Raise e => Raise e
    end
  else Ok (PyStr "0%").

Definition read_micro_benchmark_and_profiling
    (read_micro_benchmark_function : option micro_benchmark)
    (iterations warmups : Z) (file : option string) : M unit :=
  match file with
  | None | Some EmptyString => raise (Exception "Invalid file: file can not be none.")
  | Some file =>
  match read_micro_benchmark_function with
  | None =>
      raise (Exception
        "Invalid micro benchmark function: micro benchmark function can not be none.")
  | Some f =>
      emit ETraceStart ;;;
      r <- call f iterations warmups file ;;
      match r with
      | None => raise TypeError
      | Some (file_size, result_with_gc, result_without_gc, result_with_raw_value) =>
          emit EGetTraced ;;;
          memory_usage_peak <- lift (Py.int_truediv (traced_peak w) BYTES_TO_MB) ;;
          emit ETraceStop ;;;
          (* calculate metrics *)
          let garbage_collection_time := sub result_with_gc result_without_gc in
          let conversion_time := sub result_without_gc result_with_raw_value in
          gc_pct <- lift (percentage_cell garbage_collection_time result_with_gc) ;;
          conv_pct <- lift (percentage_cell conversion_time result_with_gc) ;;
          read_generate_report
            (PyStr (Py.format_2e file_size))
            (PyStr (Py.format_2e result_with_gc))
            (PyStr (Py.format_2e result_without_gc))
            (time_cell garbage_collection_time)
            gc_pct
            (time_cell conversion_time)
            conv_pct
            (PyStr (Py.format_2e memory_usage_peak))
      end
  end
  end.

(** The dictionary [docopt] builds from the command line. *)
Record docopt_arguments : Type := {
  arg_write : bool;                (* arguments['write'] *)
  arg_read : bool;                 (* arguments['read'] *)
  arg_generate : bool;             (* arguments['generate'] *)
  arg_input_file : option string;  (* arguments['<input_file>'] *)
  arg_api : option string;         (* arguments['--api'] *)
  arg_iterations : string;         (* arguments['--iterations'] *)
  arg_warmups : string             (* arguments['--warmups'] *)
}.

Definition ion_python_benchmark_cli (arguments : docopt_arguments) : M unit :=
  if Py.falsy (arg_input_file arguments) then raise (Exception "Invalid input file")
  else
    let file := arg_input_file arguments in
    iterations <- lift (Py.int (arg_iterations arguments)) ;;
    warmups <- lift (Py.int (arg_warmups arguments)) ;;

    if arg_read arguments then
      let api := arg_api arguments in
      read_micro_benchmark_function <-
        (if Py.falsy api || Py.str_eqb api (API_value SIMPLE_ION) then ret Simpleion
         else if Py.str_eqb api (API_value ITERATOR) then ret Iterator
         else if Py.str_eqb api (API_value NON_BLOCKING) then ret NonBlocking
         else raise (Exception ("Invalid API option " ++ Py.str api ++ "."))) ;;

      read_micro_benchmark_and_profiling (Some read_micro_benchmark_function)
        iterations warmups file

    else if arg_write arguments then emit (EPrint "Write feature is not supported yet")
    else if arg_generate arguments then emit (EPrint "Generate feature is not supported yet")
    else ret tt.

(** Running the script: the state it leaves and how it ends. *)
Definition run (arguments : docopt_arguments) : result unit * state :=
  ion_python_benchmark_cli arguments initial.

End Program.

(** The interpreter's exit status: 1 after an exception nobody caught. *)
Definition exit_code {A} (r : result A) : Z :=
  match r with
  | Ok _ => 0
  | Raise _ => 1
  end.

(** ** What [docopt] returns for the three usage lines of the module docstring

    [write] and [generate] take no positional argument and no option, so
    [<input_file>] and [--api] are [None]; the two counts carry their defaults. *)

Definition docopt_write : docopt_arguments :=
  {| arg_write := true; arg_read := false; arg_generate := false;
     arg_input_file := None; arg_api := None;
     arg_iterations := "10"; arg_warmups := "10" |}.

Definition docopt_generate : docopt_arguments :=
  {| arg_write := false; arg_read := false; arg_generate := true;
     arg_input_file := None; arg_api := None;
     arg_iterations := "10"; arg_warmups := "10" |}.

Definition docopt_read (api : option string) (warmups iterations input_file : string)
    : docopt_arguments :=
  {| arg_write := false; arg_read := true; arg_generate := false;
     arg_input_file := Some input_file; arg_api := api;
     arg_iterations := iterations; arg_warmups := warmups |}.

(** ** The design, in the words of its description *)

Module Spec.

(** [max(0, x)] *)
Definition max0 (x : float) : float := if Py.gt0 x then x else zero.

Definition gc_overhead (sample_A sample_B : float) : float :=
  max0 (sub sample_A sample_B).

Definition conversion_overhead (sample_B sample_C : float) : float :=
  max0 (sub sample_B sample_C).

(** An overhead of zero is shown as the integer 0, any other in scientific
    notation. *)
Definition overhead_display (overhead : float) : pyval :=
  if is_zero overhead then PyInt 0 else PyStr (Py.format_2e overhead).

(** [overhead / sample_A], reported as "0%" if the overhead is 0. *)
Definition overhead_pct_display (overhead sample_A : float) : pyval :=
  if is_zero overhead then PyStr "0%" else PyStr (Py.format_2pct (div overhead sample_A)).

End Spec.

(** ** Vocabulary for the statements *)

(** The calls a run of [read_micro_benchmark_simpleion] makes, in order. *)
Definition simpleion_calls (file : string) (iterations warmups : Z) : list event :=
  let setup_without_gc := generate_simpleion_load_setup false in
  let setup_with_gc := generate_simpleion_load_setup true in
  let test_code := generate_simpleion_load_test_code file false false in
  let test_code_without_wrapper := generate_simpleion_load_test_code file false true in
  [EStat file;
   ETimeit test_code setup_with_gc warmups;
   ETimeit test_code setup_without_gc warmups;
   ETimeit test_code_without_wrapper setup_without_gc warmups;
   ETimeit test_code setup_with_gc iterations;
   ETimeit test_code setup_without_gc iterations;
   ETimeit test_code_without_wrapper setup_without_gc iterations].

(** The mean the program takes of the [k]-th [timeit] measurement. *)
Definition mean_sample (w : World) (k : nat) (iterations : Z) (x : float) : Prop :=
  exists t, timeit_result w k = Some t /\ Py.float_truediv_int t iterations = Ok x.

(** The second line of the table. *)
Definition report_row (file_size a b c peak : float) (gc_pct conv_pct : pyval) : list pyval :=
  [PyStr (Py.format_2e file_size); PyStr (Py.format_2e a); PyStr (Py.format_2e b);
   time_cell (sub a b); gc_pct; time_cell (sub b c); conv_pct;
   PyStr (Py.format_2e peak)].

(** [needle in hay] *)
Fixpoint contains (needle hay : string) : bool :=
  match hay with
  | EmptyString => String.prefix needle EmptyString
  | String _ rest => String.prefix needle hay || contains needle rest
  end.

(** A cell that shows a number below zero. *)
Definition shows_negative (c : pyval) : bool :=
  match c with
  | PyInt n => Z.ltb n 0
  | PyStr s => String.prefix "-" s
  end.

(** The tables a trace prints. *)
Definition printed_tables (t : list event) : list (list (list pyval)) :=
  flat_map (fun ev => match ev with EPrintTable tb => [tb] | _ => [] end) t.

(** The notices a trace prints. *)
Definition printed_notices (t : list event) : list string :=
  flat_map (fun ev => match ev with EPrint s => [s] | _ => [] end) t.

(** The setup strings a trace hands to [timeit]. *)
Definition timeit_setups (t : list event) : list string :=
  flat_map (fun ev => match ev with ETimeit _ setup _ => [setup] | _ => [] end) t.

(** What a successful run of the read benchmark measured and derived. *)
Record report : Type := {
  r_file : string;
  r_iterations : Z;
  r_warmups : Z;
  r_size : Z;
  r_file_size : float;
  r_a : float;      (* result_with_gc *)
  r_b : float;      (* result_without_gc *)
  r_c : float;      (* result_with_raw_value *)
  r_peak : float;
  r_gc_pct : pyval;
  r_conv_pct : pyval
}.

(** [m] holds what the program computes in world [w] when [k] calls of
    [timeit] were made before. *)
Definition measured_in (w : World) (k : nat) (m : report) : Prop :=
  st_size w (r_file m) = Some (r_size m) /\
  Py.int_truediv (r_size m) BYTES_TO_MB = Ok (r_file_size m) /\
  (forall i, (i < 3)%nat -> timeit_result w (k + i) <> None) /\
  mean_sample w (k + 3) (r_iterations m) (r_a m) /\
  mean_sample w (k + 4) (r_iterations m) (r_b m) /\
  mean_sample w (k + 5) (r_iterations m) (r_c m) /\
  Py.int_truediv (traced_peak w) BYTES_TO_MB = Ok (r_peak m) /\
  percentage_cell (sub (r_a m) (r_b m)) (r_a m) = Ok (r_gc_pct m) /\
  percentage_cell (sub (r_b m) (r_c m)) (r_a m) = Ok (r_conv_pct m).

Definition row_of (m : report) : list pyval :=
  report_row (r_file_size m) (r_a m) (r_b m) (r_c m) (r_peak m) (r_gc_pct m) (r_conv_pct m).

(** Everything a successful run does, in order. *)
Definition profiling_trace (m : report) : list event :=
  ([ETraceStart] ++ simpleion_calls (r_file m) (r_iterations m) (r_warmups m)
     ++ [EGetTraced; ETraceStop; EPrintTable [header; row_of m]])%list.

(** The events that happen while allocation tracking is switched on. *)
Fixpoint tracked (on : bool) (t : list event) : list event :=
  match t with
  | [] => []
  | ETraceStart :: rest => tracked true rest
  | ETraceStop :: rest => tracked false rest
  | ev :: rest => if on then ev :: tracked on rest else tracked on rest
  end.

(** The description's [InvalidArgumentError]: the exceptions the program
    raises itself on a bad argument, all of the plain class [Exception]. *)
Definition invalid_argument_error (e : exn) : bool :=
  match e with
  | Exception _ => true
  | _ => false
  end.

(** The three warm-up executions. *)
Definition warmup_calls (file : string) (warmups : Z) : list event :=
  [ETimeit (generate_simpleion_load_test_code file false false)
           (generate_simpleion_load_setup true) warmups;
   ETimeit (generate_simpleion_load_test_code file false false)
           (generate_simpleion_load_setup false) warmups;
   ETimeit (generate_simpleion_load_test_code file false true)
           (generate_simpleion_load_setup false) warmups].

(** The timed loop of the first variant: collector enabled, wrapped values. *)
Definition timed_call_A (file : string) (iterations : Z) : event :=
  ETimeit (generate_simpleion_load_test_code file false false)
          (generate_simpleion_load_setup true) iterations.


(** The [--api] values for which the first branch of the dispatch is taken. *)
Definition selects_simpleion (api : option string) : bool :=
  Py.falsy api || Py.str_eqb api (API_value SIMPLE_ION).

(** The exceptions that come out of the benchmark function itself. *)
Definition benchmark_failure (e : exn) : bool :=
  match e with
  | TypeError | OSError | TimedCodeError | OverflowError => true
  | _ => false
  end.

(** The same dictionary with another [--api] entry. *)
Definition with_api (api : option string) (arguments : docopt_arguments) : docopt_arguments :=
  {| arg_write := arg_write arguments; arg_read := arg_read arguments;
     arg_generate := arg_generate arguments;
     arg_input_file := arg_input_file arguments; arg_api := api;
     arg_iterations := arg_iterations arguments; arg_warmups := arg_warmups arguments |}.

(** Rounding: nothing was lost by the shifts so far. *)
Definition nothing_lost (mrs : shr_record) : bool := negb (shr_r mrs || shr_s mrs).

Definition loc_exact (l : location) : bool :=
  match l with loc_Exact => true | _ => false end.

(** The least integer that is not below the number that [m] and [l] stand for. *)
Definition ceiling (m : Z) (l : location) : Z := (m + (if loc_exact l then 0 else 1))%Z.

(** A float that is zero or positive, and in value at most [mu * 2 ^ eu]. *)
Definition at_most (mu eu : Z) (x : float) : Prop :=
  x = S754_zero false \/
  exists m e, x = S754_finite false m e /\ (e <= eu)%Z /\ (Zpos m <= mu * 2 ^ (eu - e))%Z.

(** The sign bit of a float: set for negative numbers and for -0.0. *)
Definition negative_sign (x : float) : bool :=
  match x with
  | S754_zero s | S754_infinity s | S754_finite s _ _ => s
  | S754_nan => false
  end.

(** The calls of [timeit] in a trace. *)
Definition timeit_events (t : list event) : list event :=
  filter (fun ev => match ev with ETimeit _ _ _ => true | _ => false end) t.

(** A float that is finite and not below zero. *)
Definition nonneg (x : float) : bool := is_finite x && leb zero x.

(** A world to run examples in: one 10 MB file, and a clock that reports
    10 s, 30 s and 0 s for the three timed loops. *)
Definition example_world : World :=
  {| os_stat_size := fun f => if String.eqb f "data.ion" then Some 10485760 else None;
     timeit_result := fun n =>
       Some (nth n [of_Z 1; of_Z 1; of_Z 1; of_Z 10; of_Z 30; of_Z 0] zero);
     traced_peak := 3145728 |}.



(** What the program measures in [example_world] for [read data.ion]. *)
Definition example_report : report :=
  {| r_file := "data.ion"; r_iterations := 10; r_warmups := 10;
     r_size := 10485760;
     r_file_size := S754_finite false 5629499534213120 (-49);
     r_a := div (of_Z 10) (of_Z 10);
     r_b := div (of_Z 30) (of_Z 10);
     r_c := div (of_Z 0) (of_Z 10);
     r_peak := S754_finite false 6755399441055744 (-51);
     r_gc_pct := PyStr "0%";
     r_conv_pct := PyStr "300.00%" |}.

(** The ratio a percentage cell shows: [t / total] when it is formatted,
    zero when the cell is the literal "0%". *)
Definition shown_ratio (t total : float) : float :=
  if Py.gt0 t then div t total else zero.

Definition in_unit_interval (x : float) : bool := leb zero x && leb x one.

(** [read data.ion] with every option left at its default. *)
Definition example_read : docopt_arguments := docopt_read None "10" "10" "data.ion".

(** The state that run leaves. *)
Definition example_final : state := snd (run example_world example_read).

(** * Properties *)

(** ** Runs of the program *)

Ltac unfold_monad :=
  cbv beta iota delta
    [run ion_python_benchmark_cli read_micro_benchmark_and_profiling call
     read_micro_benchmark_simpleion read_micro_benchmark_iterator
     read_micro_benchmark_non_blocking read_generate_report
     stat timeit bind ret raise lift emit initial] in *.

Ltac split_run :=
  repeat match goal with
  | H : (_, _) = (_, _) |- _ => inversion H; subst; clear H
  | H : context [match ?x with _ => _ end] |- _ => destruct x eqn:?; try discriminate
  end.

Section Runs.

Variable w : World.

Lemma simpleion_ok iterations warmups file s r s' :
  read_micro_benchmark_simpleion w iterations warmups file s = (Ok r, s') ->
  exists size file_size a b c,
    r = Some (file_size, a, b, c) /\
    st_size w file = Some size /\
    Py.int_truediv size BYTES_TO_MB = Ok file_size /\
    (forall i, (i < 3)%nat -> timeit_result w (timeit_calls s + i) <> None) /\
    mean_sample w (timeit_calls s + 3) iterations a /\
    mean_sample w (timeit_calls s + 4) iterations b /\
    mean_sample w (timeit_calls s + 5) iterations c /\
    trace s' = (trace s ++ simpleion_calls file iterations warmups)%list.
Proof.
  intros H. unfold_monad. cbn [trace timeit_calls] in H.
  split_run. cbn [trace timeit_calls] in *.
  replace (timeit_calls s + 3)%nat with (S (S (S (timeit_calls s)))) by lia.
  replace (timeit_calls s + 4)%nat with (S (S (S (S (timeit_calls s))))) by lia.
  replace (timeit_calls s + 5)%nat with (S (S (S (S (S (timeit_calls s)))))) by lia.
  unfold mean_sample. do 5 eexists.
  repeat match goal with |- _ /\ _ => split end; eauto.
  - intros i Hi.
    assert (i = 0 \/ i = 1 \/ i = 2)%nat as [-> | [-> | ->]] by lia;
      rewrite ?Nat.add_0_r, ?Nat.add_1_r, ?Nat.add_succ_r, ?Nat.add_0_r; congruence.
  - cbn [trace]. unfold simpleion_calls. repeat rewrite <- app_assoc. reflexivity.
Qed.


Lemma bind_ok_inv {A B} (c : M A) (k : A -> M B) s b s' :
  bind c k s = (Ok b, s') ->
  exists a s1, c s = (Ok a, s1) /\ k a s1 = (Ok b, s').
Proof.
  unfold bind. destruct (c s) as [[a|e] s1]; [eauto | discriminate].
Qed.

Lemma lift_ok_inv {A} (r : result A) s a s' :
  lift r s = (Ok a, s') -> r = Ok a /\ s' = s.
Proof. unfold lift. intros H; inversion H; auto. Qed.

Lemma emit_inv ev s u s' :
  emit ev s = (Ok u, s') ->
  trace s' = (trace s ++ [ev])%list /\ timeit_calls s' = timeit_calls s.
Proof. unfold emit. intros H; inversion H; auto. Qed.

(** A profiling run that returns normally ran the simpleIon benchmark on a
    named file and did exactly [profiling_trace]. *)
Lemma profiling_ok f iterations warmups file s s' :
  read_micro_benchmark_and_profiling w (Some f) iterations warmups file s = (Ok tt, s') ->
  exists m,
    f = Simpleion /\ file = Some (r_file m) /\
    r_iterations m = iterations /\ r_warmups m = warmups /\
    measured_in w (timeit_calls s) m /\
    trace s' = (trace s ++ profiling_trace m)%list.
Proof.
  unfold read_micro_benchmark_and_profiling. intros H.
  destruct file as [[|c0 file]|]; try discriminate.
  apply bind_ok_inv in H as ([] & s1 & He & H). apply emit_inv in He as [Ht1 Hc1].
  apply bind_ok_inv in H as (r & s2 & Hcall & H).
  destruct f; cbn [call] in Hcall;
    try (inversion Hcall; subst; discriminate).
  apply simpleion_ok in Hcall
    as (size & file_size & a & b & c & -> & Hsize & Hfs & Hw & Ha & Hb & Hc & Ht2).
  apply bind_ok_inv in H as ([] & s3 & He & H). apply emit_inv in He as [Ht3 Hc3].
  apply bind_ok_inv in H as (peak & s4 & Hpeak & H). apply lift_ok_inv in Hpeak as [Hpeak ->].
  apply bind_ok_inv in H as ([] & s4 & He & H). apply emit_inv in He as [Ht4 Hc4].
  apply bind_ok_inv in H as (gc_pct & s5 & Hgc & H). apply lift_ok_inv in Hgc as [Hgc ->].
  apply bind_ok_inv in H as (conv_pct & s5 & Hconv & H). apply lift_ok_inv in Hconv as [Hconv ->].
  apply emit_inv in H as [Ht5 Hc5].
  exists {| r_file := String c0 file; r_iterations := iterations; r_warmups := warmups;
            r_size := size; r_file_size := file_size; r_a := a; r_b := b; r_c := c;
            r_peak := peak; r_gc_pct := gc_pct; r_conv_pct := conv_pct |}.
  unfold measured_in, profiling_trace, row_of; cbn [r_file r_iterations r_warmups r_size
    r_file_size r_a r_b r_c r_peak r_gc_pct r_conv_pct].
  rewrite <- Hc1.
  repeat match goal with |- _ /\ _ => split end; auto.
  rewrite Ht5, Ht4, Ht3, Ht2, Ht1. repeat rewrite <- app_assoc. reflexivity.
Qed.


(** A read command that returns normally. *)
Lemma read_run_ok args st :
  arg_read args = true ->
  run w args = (Ok tt, st) ->
  exists m,
    arg_input_file args = Some (r_file m) /\
    Py.int (arg_iterations args) = Ok (r_iterations m) /\
    Py.int (arg_warmups args) = Ok (r_warmups m) /\
    measured_in w 0 m /\
    trace st = profiling_trace m.
Proof.
  unfold run, ion_python_benchmark_cli. intros Hread H.
  destruct (Py.falsy (arg_input_file args)) eqn:Hfile; [discriminate|].
  apply bind_ok_inv in H as (iterations & s1 & Hit & H).
  apply lift_ok_inv in Hit as [Hit ->].
  apply bind_ok_inv in H as (warmups & s1 & Hwu & H).
  apply lift_ok_inv in Hwu as [Hwu ->].
  rewrite Hread in H.
  apply bind_ok_inv in H as (f & s1 & Hf & H).
  assert (s1 = initial) as ->.
  { repeat match type of Hf with
           | (if ?b then _ else _) _ = _ => destruct b
           end; inversion Hf; reflexivity. }
  apply profiling_ok in H as (m & _ & Hm & <- & <- & Hmeas & Ht).
  exists m. repeat split; auto; apply Hmeas.
Qed.

End Runs.

Lemma printed_tables_profiling m :
  printed_tables (profiling_trace m) = [[header; row_of m]].
Proof. reflexivity. Qed.

Lemma tracked_profiling m :
  tracked false (profiling_trace m)
  = (simpleion_calls (r_file m) (r_iterations m) (r_warmups m) ++ [EGetTraced])%list.
Proof. reflexivity. Qed.

(** ** The report's cells *)

Lemma gt0_not_zero t : Py.gt0 t = true -> is_zero t = false.
Proof. destruct t as [[]|[]| |[] m e]; cbn; congruence. Qed.

Lemma time_cell_spec t :
  time_cell t = Spec.overhead_display (Spec.max0 t).
Proof.
  unfold time_cell, Spec.overhead_display, Spec.max0.
  destruct (Py.gt0 t) eqn:Hgt.
  - now rewrite (gt0_not_zero _ Hgt).
  - reflexivity.
Qed.

Lemma percentage_cell_spec t total p :
  percentage_cell t total = Ok p ->
  p = Spec.overhead_pct_display (Spec.max0 t) total.
Proof.
  unfold percentage_cell, Spec.overhead_pct_display, Spec.max0, Py.float_truediv.
  destruct (Py.gt0 t) eqn:Hgt.
  - rewrite (gt0_not_zero _ Hgt). destruct (is_zero total); [discriminate|].
    intros H; inversion H; reflexivity.
  - cbn. intros H; inversion H; reflexivity.
Qed.





(** ** C1 *)

(** C1. In every read run that returns normally, the three samples are the
    readings of the fourth, fifth and sixth call of [timeit], each divided by
    the [--iterations] count: the timed loops, with that count as number, of
    the statement with wrapped values under the setup that enables the
    collector, of the same statement under the plain setup, and of the
    statement with bare values under the plain setup. With [a], [b], [c] these
    means, the table shows the overheads of step 4: the time cells are
    [max(0, a - b)] and [max(0, b - c)], and each percentage is that overhead
    divided by [a]. *)
Theorem C1_overheads_follow_step_4 (w : World) (args : docopt_arguments) (st : state) :
  arg_read args = true ->
  run w args = (Ok tt, st) ->
  exists m,
    arg_input_file args = Some (r_file m) /\
    Py.int (arg_iterations args) = Ok (r_iterations m) /\
    Py.int (arg_warmups args) = Ok (r_warmups m) /\
    measured_in w 0 m /\
    trace st = profiling_trace m /\
    timeit_events (trace st)
    = (warmup_calls (r_file m) (r_warmups m)
         ++ [timed_call_A (r_file m) (r_iterations m);
             ETimeit (generate_simpleion_load_test_code (r_file m) false false)
                     (generate_simpleion_load_setup false) (r_iterations m);
             ETimeit (generate_simpleion_load_test_code (r_file m) false true)
                     (generate_simpleion_load_setup false) (r_iterations m)])%list /\
    mean_sample w 3 (r_iterations m) (r_a m) /\
    mean_sample w 4 (r_iterations m) (r_b m) /\
    mean_sample w 5 (r_iterations m) (r_c m) /\
    printed_tables (trace st) = [[header; row_of m]] /\
    row_of m =
      [PyStr (Py.format_2e (r_file_size m));
       PyStr (Py.format_2e (r_a m));
       PyStr (Py.format_2e (r_b m));
       Spec.overhead_display (Spec.gc_overhead (r_a m) (r_b m));
       Spec.overhead_pct_display (Spec.gc_overhead (r_a m) (r_b m)) (r_a m);
       Spec.overhead_display (Spec.conversion_overhead (r_b m) (r_c m));
       Spec.overhead_pct_display (Spec.conversion_overhead (r_b m) (r_c m)) (r_a m);
       PyStr (Py.format_2e (r_peak m))].
Proof.
  intros Hread Hrun.
  destruct (read_run_ok w args st Hread Hrun) as (m & Hfile & Hit & Hwu & Hm & Ht).
  exists m. do 4 (split; [assumption|]). split; [exact Ht|].
  split; [rewrite Ht; reflexivity|].
  destruct Hm as (_ & _ & _ & Ha & Hb & Hc & _ & Hgc & Hconv).
  do 3 (split; [assumption|]). split.
  - rewrite Ht. apply printed_tables_profiling.
  - unfold row_of, report_row, Spec.gc_overhead, Spec.conversion_overhead.
    rewrite <- (percentage_cell_spec _ _ _ Hgc), <- (percentage_cell_spec _ _ _ Hconv).
    now rewrite !time_cell_spec.
Qed.

Lemma C1_overheads_follow_step_4_witness :
  run example_world example_read = (Ok tt, example_final) /\
  exists m,
    r_iterations m = 10 /\
    mean_sample example_world 3 10 (r_a m) /\
    printed_tables (trace example_final) = [[header; row_of m]].
Proof.
  split; [vm_compute; reflexivity|].
  destruct (C1_overheads_follow_step_4 example_world example_read example_final eq_refl)
    as (m & _ & Hit & _ & _ & _ & _ & Ha & _ & _ & Ht & _).
  - vm_compute; reflexivity.
  - assert (Ok 10 = Ok (r_iterations m)) as E0
      by (rewrite <- Hit; vm_compute; reflexivity).
    assert (r_iterations m = 10) as E by (inversion E0; reflexivity).
    exists m. split; [exact E|]. split; [rewrite <- E; exact Ha | exact Ht].
Defined.

(** ** C2 *)



(** ** Runs that end in an exception *)

Ltac innermost_case H :=
  match type of H with
  | context [match ?x with _ => _ end] =>
      lazymatch x with
      | context [match _ with _ => _ end] => fail
      | _ => destruct x eqn:?
      end
  end.

Ltac case_run H :=
  unfold_monad;
  repeat (cbv beta iota in H; cbn [trace timeit_calls] in H; innermost_case H);
  cbv beta iota in H; inversion H; subst; clear H;
  try match goal with
      | E1 : arg_input_file ?a = _, E2 : Py.falsy (arg_input_file ?a) = _ |- _ =>
          rewrite E1 in E2; discriminate E2
      end.

(** An exception aborts the run before anything is printed. *)
Lemma raised_run_prints_nothing w args e st :
  run w args = (Raise e, st) ->
  printed_tables (trace st) = [] /\ printed_notices (trace st) = [].
Proof.
  intros H. case_run H; split; reflexivity.
Qed.

(** Whatever the outcome, [timeit] is only ever handed the two setups. *)
Lemma run_setups w args :
  Forall (fun setup => setup = generate_simpleion_load_setup true
                       \/ setup = generate_simpleion_load_setup false)
         (timeit_setups (trace (snd (run w args)))).
Proof.
  destruct (run w args) as [r st] eqn:H. cbn [snd].
  case_run H; cbn [trace timeit_setups flat_map app];
    repeat first [apply Forall_nil | apply Forall_cons; [auto|]].
Qed.

(** ** C10 *)

(** C10. The setup generated for the variants without garbage collection is
    the import statement alone: no text about [gc] is in it, so nothing
    disables collection. Only the setup with [gc=True] goes on to call
    [gc.enable()]. In every run, [timeit] receives one of these two setups and
    none that holds [gc.disable]; a run that returns normally hands them out
    in the order with, without, without, for the warm-up and again for the
    timed loops. *)
Theorem C10_setup_without_gc_only_imports :
  generate_simpleion_load_setup false = "import amazon.ion.simpleion as ion" /\
  contains "gc" (generate_simpleion_load_setup false) = false /\
  generate_simpleion_load_setup true
    = generate_simpleion_load_setup false ++ "; import gc; gc.enable();" /\
  contains "gc.disable" (generate_simpleion_load_setup true) = false /\
  (forall w args,
     Forall (fun setup => contains "gc.disable" setup = false)
            (timeit_setups (trace (snd (run w args))))) /\
  (forall w args st,
     arg_read args = true ->
     run w args = (Ok tt, st) ->
     timeit_setups (trace st)
     = [generate_simpleion_load_setup true;
        generate_simpleion_load_setup false;
        generate_simpleion_load_setup false;
        generate_simpleion_load_setup true;
        generate_simpleion_load_setup false;
        generate_simpleion_load_setup false]).
Proof.
  repeat split; try reflexivity.
  - intros w args.
    eapply Forall_impl; [|apply run_setups].
    intros setup [-> | ->]; reflexivity.
  - intros w args st Hread Hrun.
    destruct (read_run_ok w args st Hread Hrun) as (m & _ & _ & _ & _ & ->).
    reflexivity.
Qed.

(** ** C6 *)

(** C6. For [write] and for [generate], [docopt] leaves [<input_file>] at
    [None], and the guard on the input file comes first: the program raises
    Exception('Invalid input file'), prints no notice and ends with status 1.
    The notice is only reached by a dictionary that carries an input file. *)
Theorem C6_write_and_generate_raise (w : World) :
  run w docopt_write = (Raise (Exception "Invalid input file"), initial) /\
  run w docopt_generate = (Raise (Exception "Invalid input file"), initial) /\
  printed_notices (trace (snd (run w docopt_write))) = [] /\
  exit_code (fst (run w docopt_write)) = 1 /\
  exit_code (fst (run w docopt_generate)) = 1 /\
  run w {| arg_write := true; arg_read := false; arg_generate := false;
           arg_input_file := Some "data.ion"; arg_api := None;
           arg_iterations := "10"; arg_warmups := "10" |}
    = (Ok tt, {| trace := [EPrint "Write feature is not supported yet"];
                 timeit_calls := 0 |}).
Proof. repeat split. Qed.

(** ** C5 *)

(** C5. With [--api nonBlocking] or [--api iterator] the placeholder returns
    [None], unpacking it raises TypeError right after allocation tracking was
    started: nothing is printed, no table and no notice, and the program ends
    with status 1. *)
Theorem C5_placeholder_api_raises_type_error (w : World) :
  let started := {| trace := [ETraceStart]; timeit_calls := 0 |} in
  run w (docopt_read (Some "nonBlocking") "10" "10" "data.ion") = (Raise TypeError, started) /\
  run w (docopt_read (Some "iterator") "10" "10" "data.ion") = (Raise TypeError, started) /\
  printed_notices (trace started) = [] /\
  printed_tables (trace started) = [] /\
  exit_code (fst (run w (docopt_read (Some "nonBlocking") "10" "10" "data.ion"))) = 1.
Proof. repeat split. Qed.

Lemma C10_setup_without_gc_only_imports_witness :
  timeit_setups (trace example_final)
  = [generate_simpleion_load_setup true;
     generate_simpleion_load_setup false;
     generate_simpleion_load_setup false;
     generate_simpleion_load_setup true;
     generate_simpleion_load_setup false;
     generate_simpleion_load_setup false].
Proof.
  destruct C10_setup_without_gc_only_imports as (_ & _ & _ & _ & _ & H).
  apply (H example_world example_read); vm_compute; reflexivity.
Defined.

(** ** C8 *)

(** [int()] fails in one way only. *)
Lemma int_raises s e : Py.int s = Raise e -> e = ValueError.
Proof.
  unfold Py.int.
  destruct (Py.strip s) as [|c t]; [|destruct (Ascii.eqb c "-"), (Ascii.eqb c "+")];
    repeat match goal with
           | |- context [match ?x with _ => _ end] => destruct x
           end; intros H; inversion H; reflexivity.
Qed.




(** ** C9 *)

(** In the example run the tracked region is not the timed loop of the first
    variant alone: the warm-up executions happen inside it. *)
Lemma C9_tracking_covers_warmups :
  run example_world example_read = (Ok tt, example_final) /\
  tracked false (trace example_final) <> [timed_call_A "data.ion" 10; EGetTraced] /\
  incl (warmup_calls "data.ion" 10) (tracked false (trace example_final)).
Proof.
  split; [vm_compute; reflexivity|].
  split; [vm_compute; discriminate|].
  intros ev Hev. vm_compute in Hev. vm_compute.
  repeat destruct Hev as [<- | Hev]; try contradiction; auto 10.
Qed.

(** C9. In every read run that returns normally, allocation tracking is
    started first and stopped right after the peak was read, and it is
    switched on during the whole of the micro-benchmark function: the
    [stat] of the file, the three warm-up executions and the timed loops of
    all three variants, in this order, and nothing else. The peak is read
    once, after the last timed loop and before the stop, and the last cell of
    the table is that reading of the tracker, divided by [BYTES_TO_MB]. *)
Theorem C9_tracking_brackets_whole_benchmark (w : World) (args : docopt_arguments) (st : state) :
  arg_read args = true ->
  run w args = (Ok tt, st) ->
  exists m,
    arg_input_file args = Some (r_file m) /\
    Py.int (arg_iterations args) = Ok (r_iterations m) /\
    Py.int (arg_warmups args) = Ok (r_warmups m) /\
    measured_in w 0 m /\
    trace st = ([ETraceStart]
                  ++ simpleion_calls (r_file m) (r_iterations m) (r_warmups m)
                  ++ [EGetTraced; ETraceStop; EPrintTable [header; row_of m]])%list /\
    tracked false (trace st)
    = ([EStat (r_file m)] ++ warmup_calls (r_file m) (r_warmups m)
         ++ [timed_call_A (r_file m) (r_iterations m);
             ETimeit (generate_simpleion_load_test_code (r_file m) false false)
                     (generate_simpleion_load_setup false) (r_iterations m);
             ETimeit (generate_simpleion_load_test_code (r_file m) false true)
                     (generate_simpleion_load_setup false) (r_iterations m);
             EGetTraced])%list /\
    Py.int_truediv (traced_peak w) BYTES_TO_MB = Ok (r_peak m) /\
    List.length (row_of m) = 8%nat /\
    nth 7 (row_of m) (PyInt 0) = PyStr (Py.format_2e (r_peak m)).
Proof.
  intros Hread Hrun.
  destruct (read_run_ok w args st Hread Hrun) as (m & Hfile & Hit & Hwu & Hm & Ht).
  exists m. do 4 (split; [assumption|]). split; [exact Ht|].
  split; [rewrite Ht; reflexivity|].
  destruct Hm as (_ & _ & _ & _ & _ & _ & Hpeak & _).
  split; [exact Hpeak|]. split; reflexivity.
Qed.

Lemma C9_tracking_brackets_whole_benchmark_witness :
  List.length (tracked false (trace example_final)) = 8%nat /\
  exists row,
    printed_tables (trace example_final) = [[header; row]] /\
    nth 7 row (PyInt 0) = PyStr "3.00e+00".
Proof.
  destruct (C9_tracking_brackets_whole_benchmark example_world example_read example_final)
    as (m & _ & _ & _ & _ & Htr & Ht & Hpeak & _ & Hcell).
  - reflexivity.
  - vm_compute; reflexivity.
  - split; [rewrite Ht; reflexivity|].
    exists (row_of m). split; [rewrite Htr; reflexivity|].
    rewrite Hcell.
    assert (Ok (r_peak m) = Ok (S754_finite false 6755399441055744 (-51))) as E
      by (rewrite <- Hpeak; vm_compute; reflexivity).
    inversion E as [E']. rewrite E'. vm_compute. reflexivity.
Defined.

(** ** C4 *)

Lemma float_truediv_int_zero x : Py.float_truediv_int x 0 = Raise ZeroDivisionError.
Proof. reflexivity. Qed.

(** With [--iterations 0] the example run ends in ZeroDivisionError, which is
    not one of the program's argument errors. *)
Lemma C4_zero_iterations_zero_division :
  ~ (forall w args,
       arg_read args = true -> Py.int (arg_iterations args) = Ok 0 ->
       exists e st, run w args = (Raise e, st) /\ invalid_argument_error e = true).
Proof.
  intros H.
  destruct (H example_world (docopt_read None "10" "0" "data.ion") eq_refl eq_refl)
    as (e & st & Hrun & He).
  vm_compute in Hrun. inversion Hrun; subst. discriminate He.
Qed.

(** C4. A read run with [--iterations 0] never returns normally and prints
    no report table. The program does not check the count: on the simpleIon
    path, with a readable file and timed code that does not raise, it stats
    the file, runs the three warm-up loops and the first timed loop, and the
    mean of that loop raises ZeroDivisionError, with tracking still on. *)
Theorem C4_zero_iterations_fails (w : World) (args : docopt_arguments) :
  arg_read args = true ->
  Py.int (arg_iterations args) = Ok 0 ->
  (exists e st,
     run w args = (Raise e, st) /\
     printed_tables (trace st) = [] /\
     exit_code (fst (run w args)) = 1) /\
  (forall c file warmups size file_size,
     arg_input_file args = Some (String c file) ->
     Py.int (arg_warmups args) = Ok warmups ->
     selects_simpleion (arg_api args) = true ->
     st_size w (String c file) = Some size ->
     Py.int_truediv size BYTES_TO_MB = Ok file_size ->
     (forall i, (i < 4)%nat -> timeit_result w i <> None) ->
     run w args
     = (Raise ZeroDivisionError,
        {| trace := ([ETraceStart; EStat (String c file)]
                       ++ warmup_calls (String c file) warmups
                       ++ [timed_call_A (String c file) 0])%list;
           timeit_calls := 4 |})).
Proof.
  intros Hread Hit. split.
  - destruct (run w args) as [[[]|e] st] eqn:Hrun.
    + exfalso.
      destruct (read_run_ok w args st Hread Hrun)
        as (m & _ & Hit' & _ & (_ & _ & _ & (t & _ & Ha) & _) & _).
      rewrite Hit in Hit'. inversion Hit' as [H0]. rewrite <- H0 in Ha.
      rewrite float_truediv_int_zero in Ha. discriminate Ha.
    + exists e, st. repeat split.
      apply (raised_run_prints_nothing w args e st Hrun).
  - intros c file warmups size file_size Hfile Hwu Hapi Hsize Hfs Ht.
    assert (exists t0 t1 t2 t3,
               timeit_result w 0 = Some t0 /\ timeit_result w 1 = Some t1 /\
               timeit_result w 2 = Some t2 /\ timeit_result w 3 = Some t3)
      as (t0 & t1 & t2 & t3 & H0 & H1 & H2 & H3).
    { pose proof (Ht 0%nat ltac:(lia)). pose proof (Ht 1%nat ltac:(lia)).
      pose proof (Ht 2%nat ltac:(lia)). pose proof (Ht 3%nat ltac:(lia)).
      destruct (timeit_result w 0), (timeit_result w 1),
               (timeit_result w 2), (timeit_result w 3); try congruence.
      do 4 eexists; repeat split. }
    unfold selects_simpleion in Hapi.
    unfold run, ion_python_benchmark_cli.
    rewrite Hfile, Hread. cbn [Py.falsy].
    unfold bind at 1. rewrite Hit. unfold lift at 1.
    unfold bind at 1. rewrite Hwu. unfold lift at 1.
    rewrite Hapi.
    unfold_monad. cbn [trace timeit_calls app].
    rewrite Hsize, Hfs. cbn [trace timeit_calls app].
    rewrite H0. cbn [trace timeit_calls app].
    rewrite H1. cbn [trace timeit_calls app].
    rewrite H2. cbn [trace timeit_calls app].
    rewrite H3. cbn [trace timeit_calls app].
    rewrite float_truediv_int_zero. reflexivity.
Qed.

Lemma C4_zero_iterations_fails_witness :
  run example_world (docopt_read None "10" "0" "data.ion")
  = (Raise ZeroDivisionError,
     {| trace := ([ETraceStart; EStat "data.ion"] ++ warmup_calls "data.ion" 10
                    ++ [timed_call_A "data.ion" 0])%list;
        timeit_calls := 4 |}).
Proof.
  destruct (C4_zero_iterations_fails example_world (docopt_read None "10" "0" "data.ion"))
    as [_ H].
  - reflexivity.
  - vm_compute; reflexivity.
  - apply (H "d"%char "ata.ion" 10 10485760 (S754_finite false 5629499534213120 (-49))).
    + reflexivity.
    + vm_compute; reflexivity.
    + reflexivity.
    + reflexivity.
    + vm_compute; reflexivity.
    + intros i Hi. vm_compute. discriminate.
Defined.

(** * Further properties of the program *)

(** ** Where each exception can come from *)

Lemma int_truediv_raises a b e :
  Py.int_truediv a b = Raise e ->
  (e = ZeroDivisionError /\ b = 0) \/ e = OverflowError.
Proof.
  unfold Py.int_truediv. destruct (Z.eqb_spec b 0) as [-> | Hb].
  - intros H; inversion H; auto.
  - destruct (Z.eqb a 0); [discriminate|].
    destruct (SFdiv_core_binary _ _ _ _ _ _) as [[q e'] l].
    destruct (binary_round_aux _ _ _ _ _ _); intros H; inversion H; auto.
Qed.

Lemma float_truediv_raises x y e :
  Py.float_truediv x y = Raise e -> e = ZeroDivisionError.
Proof. unfold Py.float_truediv. destruct (is_zero y); intros H; inversion H; auto. Qed.

Lemma float_truediv_int_raises x n e :
  Py.float_truediv_int x n = Raise e -> e = ZeroDivisionError \/ e = OverflowError.
Proof.
  unfold Py.float_truediv_int.
  destruct (of_Z n); intros H; try apply float_truediv_raises in H; inversion H; auto.
Qed.

Lemma percentage_cell_raises t total e :
  percentage_cell t total = Raise e -> e = ZeroDivisionError.
Proof.
  unfold percentage_cell. destruct (Py.gt0 t); [|discriminate].
  destruct (Py.float_truediv t total) eqn:Hd; intros H; inversion H; subst.
  now apply float_truediv_raises in Hd.
Qed.

(** Name the exception behind every failed call among the hypotheses. *)
Ltac provenance :=
  repeat match goal with
         | H : Py.int _ = Raise _ |- _ => apply int_raises in H; subst
         | H : Py.int_truediv _ _ = Raise _ |- _ =>
             apply int_truediv_raises in H; destruct H as [[-> _] | ->]
         | H : Py.float_truediv_int _ _ = Raise _ |- _ =>
             apply float_truediv_int_raises in H; destruct H as [-> | ->]
         | H : percentage_cell _ _ = Raise _ |- _ =>
             apply percentage_cell_raises in H; subst
         end.

(** ** Failures and the allocation tracker *)

(** X1. When the benchmark function itself fails (the file cannot be read,
    the timed code raises, the API is a placeholder, or a number is too large
    for a float), [tracemalloc.start()] was called and [tracemalloc.stop()]
    never is: nothing catches the exception, so tracking is left switched on
    and neither the peak's table nor a notice is printed. *)
Theorem benchmark_failure_leaves_tracking_on (w : World) (args : docopt_arguments)
    (e : exn) (st : state) :
  run w args = (Raise e, st) ->
  benchmark_failure e = true ->
  hd_error (trace st) = Some ETraceStart /\
  ~ In ETraceStop (trace st) /\
  printed_tables (trace st) = [] /\
  printed_notices (trace st) = [].
Proof.
  intros H He. case_run H; provenance; try discriminate He;
    (split; [reflexivity|]); (split; [|split; reflexivity]);
    cbn [app In]; intros Hin;
    repeat destruct Hin as [Hin | Hin]; try discriminate Hin; exact Hin.
Qed.

Lemma benchmark_failure_leaves_tracking_on_witness :
  run example_world (docopt_read None "10" "10" "nofile")
  = (Raise OSError, {| trace := [ETraceStart; EStat "nofile"]; timeit_calls := 0 |}) /\
  ~ In ETraceStop [ETraceStart; EStat "nofile"].
Proof.
  split; [vm_compute; reflexivity|].
  apply (benchmark_failure_leaves_tracking_on example_world
           (docopt_read None "10" "10" "nofile") OSError
           {| trace := [ETraceStart; EStat "nofile"]; timeit_calls := 0 |}).
  - vm_compute; reflexivity.
  - reflexivity.
Defined.



(** ** The dispatch on [--api] *)

(** X3. The read command depends on [--api] only through the function it
    selects. An absent value, the empty text and [simpleIon] all give the run
    of the default, and [iterator] and [nonBlocking] give one and the same
    run. *)
Theorem api_dispatch_classes (w : World) (args : docopt_arguments) :
  selects_simpleion (arg_api args) = true ->
  run w args = run w (with_api None args) /\
  run w (with_api (Some (API_value SIMPLE_ION)) args) = run w args /\
  run w (with_api (Some EmptyString) args) = run w args /\
  run w (with_api (Some (API_value ITERATOR)) args)
  = run w (with_api (Some (API_value NON_BLOCKING)) args).
Proof.
  unfold selects_simpleion. intros Hapi.
  unfold run, ion_python_benchmark_cli.
  cbn [with_api arg_write arg_read arg_generate arg_input_file arg_api
       arg_iterations arg_warmups].
  rewrite Hapi. repeat split.
Qed.

Lemma api_dispatch_classes_witness :
  run example_world (docopt_read (Some "simpleIon") "10" "10" "data.ion")
  = run example_world example_read.
Proof.
  apply (api_dispatch_classes example_world
           (docopt_read (Some "simpleIon") "10" "10" "data.ion")).
  reflexivity.
Defined.

(** ** Runs that return normally *)

(** X4. Whenever the file can be read, both counts are integers, the timed
    code raises in none of the six loops and none of the divisions fails, the
    read command on the simpleIon path returns normally, after exactly six
    calls of [timeit], and its trace is [profiling_trace]: the conditions that
    every normal run satisfies are also enough for one. *)
Theorem measured_run_succeeds (w : World) (args : docopt_arguments) (m : report) :
  arg_read args = true ->
  arg_input_file args = Some (r_file m) ->
  r_file m <> EmptyString ->
  Py.int (arg_iterations args) = Ok (r_iterations m) ->
  Py.int (arg_warmups args) = Ok (r_warmups m) ->
  selects_simpleion (arg_api args) = true ->
  measured_in w 0 m ->
  run w args = (Ok tt, {| trace := profiling_trace m; timeit_calls := 6 |}).
Proof.
  intros Hread Hfile Hne Hit Hwu Hapi
    (Hsize & Hfs & Hw & (ta & Hta & Ha) & (tb & Htb & Hb) & (tc & Htc & Hc)
     & Hpeak & Hgc & Hconv).
  assert (exists t0 t1 t2,
             timeit_result w 0 = Some t0 /\ timeit_result w 1 = Some t1 /\
             timeit_result w 2 = Some t2)
    as (t0 & t1 & t2 & H0 & H1 & H2).
  { pose proof (Hw 0%nat ltac:(lia)). pose proof (Hw 1%nat ltac:(lia)).
    pose proof (Hw 2%nat ltac:(lia)). cbn [Nat.add] in *.
    destruct (timeit_result w 0), (timeit_result w 1), (timeit_result w 2);
      try congruence.
    do 3 eexists; repeat split. }
  cbn [Nat.add] in Hta, Htb, Htc.
  unfold selects_simpleion in Hapi.
  unfold run, ion_python_benchmark_cli.
  rewrite Hfile, Hread.
  destruct (r_file m) as [|c file] eqn:Hname; [congruence|]. cbn [Py.falsy].
  unfold bind at 1. rewrite Hit. unfold lift at 1.
  unfold bind at 1. rewrite Hwu. unfold lift at 1.
  rewrite Hapi.
  unfold_monad. cbn [trace timeit_calls app].
  rewrite Hsize, Hfs. cbn [trace timeit_calls app].
  rewrite H0. cbn [trace timeit_calls app].
  rewrite H1. cbn [trace timeit_calls app].
  rewrite H2. cbn [trace timeit_calls app].
  rewrite Hta. cbn [trace timeit_calls app]. rewrite Ha.
  rewrite Htb. cbn [trace timeit_calls app]. rewrite Hb.
  rewrite Htc. cbn [trace timeit_calls app]. rewrite Hc.
  rewrite Hpeak. cbn [trace timeit_calls app].
  rewrite Hgc, Hconv.
  unfold profiling_trace, row_of, report_row, simpleion_calls.
  rewrite Hname. reflexivity.
Qed.

Lemma measured_run_succeeds_witness :
  run example_world example_read
  = (Ok tt, {| trace := profiling_trace example_report; timeit_calls := 6 |}).
Proof.
  apply (measured_run_succeeds example_world example_read example_report).
  - reflexivity.
  - reflexivity.
  - discriminate.
  - vm_compute; reflexivity.
  - vm_compute; reflexivity.
  - reflexivity.
  - unfold measured_in, mean_sample.
    split; [vm_compute; reflexivity|].
    split; [vm_compute; reflexivity|].
    split; [intros i Hi; vm_compute; discriminate|].
    split; [exists (of_Z 10); split; vm_compute; reflexivity|].
    split; [exists (of_Z 30); split; vm_compute; reflexivity|].
    split; [exists (of_Z 0); split; vm_compute; reflexivity|].
    split; [vm_compute; reflexivity|].
    split; vm_compute; reflexivity.
Defined.

(** ** What reaches the screen *)

(** X5. Whatever the arguments and the surroundings, a run prints at most
    one table: the fixed header and one row of eight cells. It prints it
    exactly when the command is [read] and the run returns normally; a run
    that printed a table printed no notice. *)
Theorem table_printed_by_normal_read_only (w : World) (args : docopt_arguments) :
  let st := snd (run w args) in
  (printed_tables (trace st) <> [] <->
   arg_read args = true /\ fst (run w args) = Ok tt) /\
  (printed_tables (trace st) = [] \/
   exists row, printed_tables (trace st) = [[header; row]] /\
               List.length row = 8%nat /\ printed_notices (trace st) = []).
Proof.
  destruct (run w args) as [r st] eqn:H. cbn [fst snd].
  case_run H; cbn [trace printed_tables printed_notices flat_map app];
    (split; [split; [intros Hne; try (now contradiction Hne); split; reflexivity
                    | intros [Hr Hok]; try discriminate Hr; try discriminate Hok;
                      discriminate]
            | first [left; reflexivity | right; eexists; repeat split]]).
Qed.

(** X6. The first cell of the table is decided by the size of the input file
    alone: two normal runs of the same command, in surroundings that agree on
    that size and differ in every clock reading and in the traced peak, show
    the same file size. *)
Theorem file_size_cell_ignores_clock (w1 w2 : World) (args : docopt_arguments)
    (st1 st2 : state) (file : string) :
  arg_read args = true ->
  arg_input_file args = Some file ->
  st_size w1 file = st_size w2 file ->
  run w1 args = (Ok tt, st1) ->
  run w2 args = (Ok tt, st2) ->
  exists size file_size rest1 rest2,
    st_size w1 file = Some size /\
    Py.int_truediv size BYTES_TO_MB = Ok file_size /\
    printed_tables (trace st1) = [[header; PyStr (Py.format_2e file_size) :: rest1]] /\
    printed_tables (trace st2) = [[header; PyStr (Py.format_2e file_size) :: rest2]].
Proof.
  intros Hread Hfile Hsame H1 H2.
  destruct (read_run_ok w1 args st1 Hread H1) as (m1 & Hf1 & _ & _ & Hm1 & Ht1).
  destruct (read_run_ok w2 args st2 Hread H2) as (m2 & Hf2 & _ & _ & Hm2 & Ht2).
  destruct Hm1 as (Hs1 & Hfs1 & _). destruct Hm2 as (Hs2 & Hfs2 & _).
  rewrite Hfile in Hf1, Hf2. inversion Hf1 as [E1]. inversion Hf2 as [E2].
  rewrite <- E1 in Hs1. rewrite <- E2, <- Hsame, Hs1 in Hs2.
  inversion Hs2 as [Esize]. rewrite <- Esize, Hfs1 in Hfs2. inversion Hfs2 as [Efs].
  exists (r_size m1), (r_file_size m1). do 2 eexists.
  split; [congruence|]. split; [exact Hfs1|].
  rewrite Ht1, Ht2, !printed_tables_profiling. unfold row_of, report_row.
  rewrite <- Efs. split; reflexivity.
Qed.

Lemma file_size_cell_ignores_clock_witness :
  exists rest, printed_tables (trace example_final) = [[header; PyStr "1.00e+01" :: rest]].
Proof.
  destruct (file_size_cell_ignores_clock example_world
              {| os_stat_size := os_stat_size example_world;
                 timeit_result := fun _ => Some (of_Z 7);
                 traced_peak := 1 |}
              example_read example_final
              (snd (run {| os_stat_size := os_stat_size example_world;
                           timeit_result := fun _ => Some (of_Z 7);
                           traced_peak := 1 |} example_read))
              "data.ion")
    as (size & fs & rest1 & rest2 & Hsize & Hfs & Ht1 & _).
  - reflexivity.
  - reflexivity.
  - reflexivity.
  - vm_compute; reflexivity.
  - vm_compute; reflexivity.
  - exists rest1. rewrite Ht1.
    assert (size = 10485760) as -> by (vm_compute in Hsize; congruence).
    vm_compute in Hfs. inversion Hfs. vm_compute. reflexivity.
Defined.

(** * Numbers *)

Section Numbers.

Local Open Scope Z_scope.

(** ** Binary digits and shifts *)

Lemma digits2_pos_size p : digits2_pos p = Pos.size p.
Proof. induction p; cbn; congruence. Qed.

Lemma Zdigits2_bounds p :
  2 ^ (Zdigits2 (Zpos p) - 1) <= Zpos p < 2 ^ Zdigits2 (Zpos p).
Proof.
  cbn [Zdigits2]. rewrite digits2_pos_size. split.
  - pose proof (Pos.size_le p) as H.
    assert (Zpos (2 ^ Pos.size p) <= Zpos p~0) as H' by exact H.
    rewrite Pos2Z.inj_pow in H'.
    replace (Zpos (Pos.size p)) with (Zpos (Pos.size p) - 1 + 1) in H' by lia.
    rewrite Z.pow_add_r in H' by lia. lia.
  - pose proof (Pos.size_gt p) as H.
    assert (Zpos p < Zpos (2 ^ Pos.size p)) as H' by exact H.
    now rewrite Pos2Z.inj_pow in H'.
Qed.

Lemma Zdigits2_nonneg m : 0 <= Zdigits2 m.
Proof. destruct m; cbn; lia. Qed.

(** A number below [2 ^ d] has at most [d] digits. *)
Lemma Zdigits2_le m d : 0 <= m < 2 ^ d -> 0 <= d -> Zdigits2 m <= d.
Proof.
  intros [Hm Hlt] Hd. destruct m as [|p|p]; [cbn; lia| |lia].
  destruct (Zdigits2_bounds p) as [Hlo _].
  destruct (Z.le_gt_cases (Zdigits2 (Zpos p)) d) as [|Hgt]; [assumption|].
  assert (2 ^ d <= 2 ^ (Zdigits2 (Zpos p) - 1)) by (apply Z.pow_le_mono_r; lia).
  lia.
Qed.

(** A number of at least [2 ^ (d - 1)] has at least [d] digits. *)
Lemma Zdigits2_ge m d : 2 ^ (d - 1) <= m -> 0 < d -> d <= Zdigits2 m.
Proof.
  intros Hge Hd.
  assert (0 < 2 ^ (d - 1)) by (apply Z.pow_pos_nonneg; lia).
  destruct m as [|p|p]; try lia.
  destruct (Zdigits2_bounds p) as [_ Hhi].
  destruct (Z.le_gt_cases d (Zdigits2 (Zpos p))) as [|Hgt]; [assumption|].
  assert (2 ^ Zdigits2 (Zpos p) <= 2 ^ (d - 1)).
  { apply Z.pow_le_mono_r; [lia|]. lia. }
  lia.
Qed.

Lemma Zdigits2_unique m d : 0 < d -> 2 ^ (d - 1) <= m < 2 ^ d -> Zdigits2 m = d.
Proof.
  intros Hd [Hlo Hhi].
  assert (0 < 2 ^ (d - 1)) by (apply Z.pow_pos_nonneg; lia).
  apply Z.le_antisymm; [apply Zdigits2_le; lia | now apply Zdigits2_ge].
Qed.

Section Rounding.

Variables prc emx : Z.

Lemma fexp_mono a b : a <= b -> fexp prc emx a <= fexp prc emx b.
Proof. unfold fexp. lia. Qed.

Lemma exact_of_loc m l : nothing_lost (shr_record_of_loc m l) = loc_exact l.
Proof. destruct l as [|[]]; reflexivity. Qed.

Lemma shr_m_of_loc m l : shr_m (shr_record_of_loc m l) = m.
Proof. destruct l as [|[]]; reflexivity. Qed.

Lemma loc_of_exact mrs : loc_exact (loc_of_shr_record mrs) = nothing_lost mrs.
Proof. destruct mrs as [m [] []]; reflexivity. Qed.

Lemma shr_1_spec mrs :
  0 <= shr_m mrs ->
  shr_m (shr_1 mrs) = shr_m mrs / 2 /\
  nothing_lost (shr_1 mrs) = nothing_lost mrs && (shr_m mrs mod 2 =? 0).
Proof.
  destruct mrs as [m r s]. cbn [shr_m]. intros Hm.
  destruct m as [|[p|p|]|p]; try lia; cbn [shr_1 shr_m nothing_lost shr_r shr_s].
  - split; [reflexivity|]. cbn. now rewrite andb_true_r.
  - rewrite Pos2Z.inj_xI. split.
    + apply Z.div_unique with 1; lia.
    + replace ((2 * Zpos p + 1) mod 2) with 1
        by (apply Z.mod_unique with (Zpos p); lia).
      cbn. now rewrite andb_false_r.
  - rewrite Pos2Z.inj_xO. split.
    + apply Z.div_unique with 0; lia.
    + replace ((2 * Zpos p) mod 2) with 0
        by (apply Z.mod_unique with (Zpos p); lia).
      cbn. now rewrite andb_true_r.
  - split; [reflexivity|]. cbn. now rewrite andb_false_r.
Qed.

(** [iter_pos] composes the steps: a relation that holds for one step and is
    closed under composition holds for the whole iteration. *)
Lemma iter_pos_rel {A} (f : A -> A) (R : Z -> A -> A -> Prop) :
  (forall x, R 1 x (f x)) ->
  (forall a b x y z, 0 < a -> 0 < b -> R a x y -> R b y z -> R (a + b) x z) ->
  forall p x, R (Zpos p) x (iter_pos f p x).
Proof.
  intros Hstep Hcomp. induction p as [p IH|p IH|]; intros x; cbn [iter_pos].
  - replace (Zpos p~1) with (1 + (Zpos p + Zpos p)) by lia.
    eapply Hcomp; [lia|lia|apply Hstep|].
    eapply Hcomp; [lia|lia|apply IH|apply IH].
  - replace (Zpos p~0) with (Zpos p + Zpos p) by lia.
    eapply Hcomp; [lia|lia|apply IH|apply IH].
  - apply Hstep.
Qed.

Lemma mod_mul_zero m a b :
  0 <= m -> 0 < a -> 0 < b ->
  (m mod (a * b) =? 0) = (m mod a =? 0) && ((m / a) mod b =? 0).
Proof.
  intros Hm Ha Hb. rewrite Z.rem_mul_r by lia.
  pose proof (Z.mod_pos_bound m a Ha). pose proof (Z.mod_pos_bound (m / a) b Hb).
  destruct (Z.eqb_spec (m mod a) 0) as [E1|E1], (Z.eqb_spec ((m / a) mod b) 0) as [E2|E2];
    cbn; apply Z.eqb_eq || apply Z.eqb_neq; nia.
Qed.

Lemma iter_shr_1_spec p mrs :
  0 <= shr_m mrs ->
  shr_m (iter_pos shr_1 p mrs) = shr_m mrs / 2 ^ Zpos p /\
  nothing_lost (iter_pos shr_1 p mrs) = nothing_lost mrs && (shr_m mrs mod 2 ^ Zpos p =? 0).
Proof.
  revert p mrs.
  apply (iter_pos_rel shr_1
           (fun n x y => 0 <= shr_m x ->
                         shr_m y = shr_m x / 2 ^ n /\
                         nothing_lost y = nothing_lost x && (shr_m x mod 2 ^ n =? 0))).
  - intros x Hx. change (2 ^ 1) with 2. now apply shr_1_spec.
  - intros a b x y z Ha Hb Hxy Hyz Hx.
    destruct (Hxy Hx) as [Hy Hey].
    assert (0 < 2 ^ a) by (apply Z.pow_pos_nonneg; lia).
    assert (0 < 2 ^ b) by (apply Z.pow_pos_nonneg; lia).
    assert (0 <= shr_m y) as Hy0 by (rewrite Hy; apply Z.div_pos; lia).
    destruct (Hyz Hy0) as [Hz Hez].
    rewrite Z.pow_add_r by lia. split.
    + rewrite Hz, Hy. apply Z.div_div; lia.
    + rewrite Hez, Hey, Hy, mod_mul_zero by lia. now rewrite andb_assoc.
Qed.

(** [shr] divides by [2 ^ n], rounding down, and remembers whether anything was
    lost. *)
Lemma shr_spec m l e n :
  0 <= m ->
  let k := Z.max 0 n in
  snd (shr (shr_record_of_loc m l) e n) = e + k /\
  shr_m (fst (shr (shr_record_of_loc m l) e n)) = m / 2 ^ k /\
  nothing_lost (fst (shr (shr_record_of_loc m l) e n)) = loc_exact l && (m mod 2 ^ k =? 0).
Proof.
  intros Hm k. subst k. destruct n as [|p|p]; cbn [shr fst snd Z.max].
  - rewrite shr_m_of_loc, exact_of_loc, Z.div_1_r, Z.mod_1_r, andb_true_r.
    repeat split; lia.
  - replace (Z.max 0 (Zpos p)) with (Zpos p) by lia.
    destruct (iter_shr_1_spec p (shr_record_of_loc m l)) as [H1 H2].
    { now rewrite shr_m_of_loc. }
    rewrite shr_m_of_loc, exact_of_loc in *. repeat split; assumption.
  - replace (Z.max 0 (Zneg p)) with 0 by lia.
    rewrite shr_m_of_loc, exact_of_loc, Z.div_1_r, Z.mod_1_r, andb_true_r.
    repeat split; lia.
Qed.


Lemma round_nearest_even_bounds m l :
  m <= round_nearest_even m l <= ceiling m l.
Proof. unfold ceiling. destruct l as [|[]]; cbn; try destruct (Z.even m); lia. Qed.

Lemma shr_fexp_spec m e l :
  0 <= m ->
  let k := Z.max 0 (fexp prc emx (Zdigits2 m + e) - e) in
  snd (shr_fexp prc emx m e l) = e + k /\
  shr_m (fst (shr_fexp prc emx m e l)) = m / 2 ^ k /\
  nothing_lost (fst (shr_fexp prc emx m e l)) = loc_exact l && (m mod 2 ^ k =? 0).
Proof. intros Hm. unfold shr_fexp. now apply shr_spec. Qed.

(** Dividing by [2 ^ k] keeps a number below a bound that is a multiple of
    [2 ^ k]. *)
Lemma shifted_ceiling m (ex : bool) k M :
  0 <= m -> 0 <= k ->
  m + (if ex then 0 else 1) <= 2 ^ k * M ->
  m / 2 ^ k + (if ex && (m mod 2 ^ k =? 0) then 0 else 1) <= M.
Proof.
  intros Hm Hk Hle.
  assert (0 < 2 ^ k) as Hp by (apply Z.pow_pos_nonneg; lia).
  pose proof (Z.div_mod m (2 ^ k) ltac:(lia)) as Hdm.
  pose proof (Z.mod_pos_bound m (2 ^ k) Hp) as Hmod.
  destruct ex; cbn [andb].
  - destruct (Z.eqb_spec (m mod 2 ^ k) 0) as [E|E]; nia.
  - nia.
Qed.

Lemma shr_fexp_upper m e l mu eu :
  0 <= m -> 0 < mu -> e <= eu ->
  fexp prc emx (Zdigits2 mu + eu) <= eu ->
  ceiling m l <= mu * 2 ^ (eu - e) ->
  let r := shr_fexp prc emx m e l in
  e <= snd r <= eu /\ 0 <= shr_m (fst r) /\
  shr_m (fst r) + (if nothing_lost (fst r) then 0 else 1) <= mu * 2 ^ (eu - snd r).
Proof.
  intros Hm Hmu He Hcan Hle r. subst r.
  destruct (shr_fexp_spec m e l Hm) as (He' & Hm' & Hex).
  set (k := Z.max 0 (fexp prc emx (Zdigits2 m + e) - e)) in *.
  assert (fexp prc emx (Zdigits2 m + e) <= eu) as Hf.
  { etransitivity; [|exact Hcan]. apply fexp_mono.
    assert (Zdigits2 m <= Zdigits2 mu + (eu - e)); [|lia].
    apply Zdigits2_le; [|pose proof (Zdigits2_nonneg mu); lia].
    split; [assumption|].
    destruct mu as [|pu|pu]; try lia.
    destruct (Zdigits2_bounds pu) as [_ Hhi].
    rewrite Z.pow_add_r by (pose proof (Zdigits2_nonneg (Zpos pu)); lia).
    assert (0 < 2 ^ (eu - e)) by (apply Z.pow_pos_nonneg; lia).
    unfold ceiling in Hle. destruct (loc_exact l); nia. }
  assert (0 <= k) by lia.
  assert (0 < 2 ^ k) by (apply Z.pow_pos_nonneg; lia).
  rewrite He', Hm', Hex. repeat split; try lia.
  - apply Z.div_pos; lia.
  - apply shifted_ceiling; try lia.
    replace (eu - e) with (k + (eu - (e + k))) in Hle by lia.
    rewrite Z.pow_add_r in Hle by lia. unfold ceiling in Hle. lia.
Qed.

(** Rounding never goes above a representable number that the exact result
    does not exceed. *)
Lemma binary_round_aux_upper sx mx ex lx mu eu :
  0 <= mx -> 0 < mu -> ex <= eu ->
  fexp prc emx (Zdigits2 mu + eu) <= eu -> eu <= emx - prc ->
  ceiling mx lx <= mu * 2 ^ (eu - ex) ->
  binary_round_aux prc emx sx mx ex lx = S754_zero sx \/
  exists m e, binary_round_aux prc emx sx mx ex lx = S754_finite sx m e /\
              e <= eu /\ Zpos m <= mu * 2 ^ (eu - e).
Proof.
  intros Hmx Hmu Hex Hcan Hmax Hle. unfold binary_round_aux.
  destruct (shr_fexp_upper mx ex lx mu eu Hmx Hmu Hex Hcan Hle) as (He1 & Hm1 & Hc1).
  destruct (shr_fexp prc emx mx ex lx) as [mrs1 e1]. cbn [fst snd] in *.
  pose proof (round_nearest_even_bounds (shr_m mrs1) (loc_of_shr_record mrs1)) as Hr.
  unfold ceiling in Hr. rewrite loc_of_exact in Hr.
  set (m2 := round_nearest_even (shr_m mrs1) (loc_of_shr_record mrs1)) in *.
  destruct (shr_fexp_upper m2 e1 loc_Exact mu eu) as (He2 & Hm2 & Hc2);
    try lia; [unfold ceiling; cbn [loc_exact]; lia|].
  destruct (shr_fexp prc emx m2 e1 loc_Exact) as [mrs2 e2]. cbn [fst snd] in *.
  destruct (shr_m mrs2) as [|p|p] eqn:E; [left; reflexivity | right | lia].
  destruct (Z.leb_spec e2 (emx - prc)); [|lia].
  exists p, e2. repeat split; [lia|]. destruct (nothing_lost mrs2); lia.
Qed.

End Rounding.

(** ** Subtraction and division of binary64 numbers *)

Lemma shl_align_spec mx ex ex' :
  snd (shl_align mx ex ex') = Z.min ex ex' /\
  Zpos (fst (shl_align mx ex ex')) = Zpos mx * 2 ^ (ex - snd (shl_align mx ex ex')).
Proof.
  unfold shl_align. destruct (ex' - ex) as [|d|d] eqn:E; cbn [fst snd].
  - replace (ex - ex) with 0 by lia. split; lia.
  - replace (ex - ex) with 0 by lia. split; lia.
  - split; [lia|].
    rewrite (Pos.iter_swap_gen _ _ Zpos xO (Z.mul 2)) by reflexivity.
    change (Pos.iter (Z.mul 2) (Zpos mx) d) with (Z.shiftl (Zpos mx) (Zpos d)).
    rewrite Z.shiftl_mul_pow2 by lia. f_equal. f_equal. lia.
Qed.

Lemma binary_round_at_most mx ex mu eu :
  0 < mu -> ex <= eu ->
  fexp prec emax (Zdigits2 mu + eu) <= eu -> eu <= emax - prec ->
  Zpos mx <= mu * 2 ^ (eu - ex) ->
  at_most mu eu (binary_round prec emax false mx ex).
Proof.
  intros Hmu Hex Hcan Hmax Hle. unfold binary_round.
  destruct (shl_align_spec mx ex (fexp prec emax (Zpos (digits2_pos mx) + ex))) as [He Hm].
  destruct (shl_align mx ex _) as [mz ez]. cbn [fst snd] in *.
  apply binary_round_aux_upper; try lia.
  unfold ceiling. cbn [loc_exact]. rewrite Hm.
  replace (eu - ez) with ((eu - ex) + (ex - ez)) by lia.
  rewrite Z.pow_add_r by lia.
  assert (0 < 2 ^ (ex - ez)) by (apply Z.pow_pos_nonneg; lia). nia.
Qed.

(** Rounding keeps the sign it is handed. *)
Lemma binary_round_aux_negative mx ex lx :
  Py.gt0 (binary_round_aux prec emax true mx ex lx) = false.
Proof.
  unfold binary_round_aux.
  destruct (shr_fexp prec emax mx ex lx) as [mrs1 e1].
  destruct (shr_fexp prec emax _ e1 loc_Exact) as [mrs2 e2].
  destruct (shr_m mrs2); [reflexivity| |reflexivity].
  destruct (e2 <=? emax - prec); reflexivity.
Qed.

(** A positive difference of two non-negative floats does not exceed the first. *)
Lemma sub_at_most ma ea b :
  valid (S754_finite false ma ea) = true ->
  nonneg b = true ->
  Py.gt0 (sub (S754_finite false ma ea) b) = true ->
  exists m e, sub (S754_finite false ma ea) b = S754_finite false m e /\
              e <= ea /\ Zpos m <= Zpos ma * 2 ^ (ea - e).
Proof.
  intros Hv Hb Hgt.
  unfold valid, valid_binary, bounded, canonical_mantissa in Hv.
  apply andb_prop in Hv as [Hcan Hmax].
  apply Z.eqb_eq in Hcan. apply Z.leb_le in Hmax.
  destruct b as [sb|sb| |[] mb eb]; try discriminate Hb.
  - exists ma, ea. split; [reflexivity|]. rewrite Z.sub_diag, Z.pow_0_r. lia.
  - unfold sub, SFsub in *. cbn [cond_Zopp] in *.
    destruct (shl_align_spec ma ea (Z.min ea eb)) as [Hea Hma].
    destruct (shl_align_spec mb eb (Z.min ea eb)) as [Heb Hmb].
    destruct (shl_align ma ea (Z.min ea eb)) as [ma' ea'].
    destruct (shl_align mb eb (Z.min ea eb)) as [mb' eb']. cbn [fst snd] in *.
    unfold binary_normalize in *.
    destruct (Zpos ma' - Zpos mb') as [|d|d] eqn:Hd.
    + discriminate Hgt.
    + destruct (binary_round_at_most d (Z.min ea eb) (Zpos ma) ea) as [Hz | Hf];
        try lia.
      * cbn [Zdigits2]. lia.
      * assert (Zpos d <= Zpos ma') as Hle by lia. rewrite Hma in Hle.
        replace ea' with (Z.min ea eb) in Hle by lia. exact Hle.
      * rewrite Hz in Hgt. discriminate Hgt.
      * exact Hf.
    + unfold binary_round in Hgt.
      destruct (shl_align d _ _) as [mz ez].
      now rewrite binary_round_aux_negative in Hgt.
Qed.

Lemma new_location_exact nb_steps k :
  loc_exact (new_location nb_steps k) = (k =? 0).
Proof.
  unfold new_location, new_location_even, new_location_odd.
  destruct (Z.even nb_steps), (k =? 0); reflexivity.
Qed.

(** The comparison of the language agrees with the bound. *)
Lemma at_most_leb mu eu x :
  at_most (Zpos mu) eu x ->
  leb zero x = true /\ leb x (S754_finite false mu eu) = true.
Proof.
  intros [-> | (m & e & -> & He & Hm)]; [split; reflexivity|].
  split; [reflexivity|].
  unfold leb, SFleb. cbn [SFcompare].
  destruct (Z.compare_spec e eu) as [-> | Hlt | Hgt]; [|reflexivity|lia].
  rewrite Z.sub_diag, Z.pow_0_r, Z.mul_1_r in Hm.
  pose proof (Pos.compare_spec m mu) as Hc. unfold Pos.compare in Hc.
  destruct Hc; try reflexivity; lia.
Qed.

Lemma one_at_most x :
  at_most 4503599627370496 (-52) x -> in_unit_interval x = true.
Proof.
  intros H. apply at_most_leb in H as [H0 H1].
  unfold in_unit_interval. rewrite H0. exact H1.
Qed.

(** The quotient of a positive float by one that is not smaller is at most 1. *)
Lemma div_at_most_one mt et ma ea :
  et <= ea -> Zpos mt <= Zpos ma * 2 ^ (ea - et) ->
  at_most 4503599627370496 (-52)
    (div (S754_finite false mt et) (S754_finite false ma ea)).
Proof.
  intros He Hm. unfold div, SFdiv, SFdiv_core_binary. cbn [xorb].
  set (e' := Z.min (fexp prec emax (Zdigits2 (Zpos mt) + et - (Zdigits2 (Zpos ma) + ea)))
                   (et - ea)).
  assert (Zdigits2 (Zpos mt) + et <= Zdigits2 (Zpos ma) + ea) as Hd.
  { assert (Zdigits2 (Zpos mt) <= Zdigits2 (Zpos ma) + (ea - et)); [|lia].
    pose proof (Zdigits2_nonneg (Zpos ma)).
    apply Zdigits2_le; [|lia]. split; [lia|].
    destruct (Zdigits2_bounds ma) as [_ Hhi].
    rewrite Z.pow_add_r by lia.
    assert (0 < 2 ^ (ea - et)) by (apply Z.pow_pos_nonneg; lia). nia. }
  assert (e' <= -53) as He'.
  { subst e'. unfold fexp, emin, prec, emax. lia. }
  assert (e' <= et - ea) as Hs by (subst e'; lia).
  set (m' := match et - ea - e' with
             | Z0 => Zpos mt
             | Zpos _ => Z.shiftl (Zpos mt) (et - ea - e')
             | Zneg _ => 0
             end).
  assert (m' = Zpos mt * 2 ^ (et - ea - e')) as Hm'.
  { subst m'. destruct (et - ea - e') as [|s|s] eqn:Es; [cbn; lia| |lia].
    apply Z.shiftl_mul_pow2; lia. }
  assert (Z.div_eucl m' (Zpos ma) = (m' / Zpos ma, m' mod Zpos ma)) as ->.
  { unfold Z.div, Z.modulo. now destruct (Z.div_eucl m' (Zpos ma)). }
  assert (0 < 2 ^ (et - ea - e')) by (apply Z.pow_pos_nonneg; lia).
  assert (0 < 2 ^ (ea - et)) by (apply Z.pow_pos_nonneg; lia).
  assert (0 < 2 ^ (- e')) by (apply Z.pow_pos_nonneg; lia).
  assert (m' <= Zpos ma * 2 ^ (- e')) as Hle.
  { rewrite Hm'. replace (- e') with ((ea - et) + (et - ea - e')) by lia.
    rewrite Z.pow_add_r by lia. nia. }
  pose proof (Z.div_mod m' (Zpos ma) ltac:(lia)) as Hdm.
  pose proof (Z.mod_pos_bound m' (Zpos ma) ltac:(lia)) as Hmod.
  assert (0 <= m' / Zpos ma) by (apply Z.div_pos; lia).
  apply binary_round_aux_upper; try lia.
  - reflexivity.
  - unfold prec, emax. lia.
  - unfold ceiling. rewrite new_location_exact.
    replace (4503599627370496 * 2 ^ (-52 - e')) with (2 ^ (- e')).
    + destruct (Z.eqb_spec (m' mod Zpos ma) 0); nia.
    + change 4503599627370496 with (2 ^ 52). rewrite <- Z.pow_add_r by lia.
      f_equal. lia.
Qed.

(** ** The size in megabytes *)

Lemma loc_of_nothing_lost mrs : nothing_lost mrs = true -> loc_of_shr_record mrs = loc_Exact.
Proof. destruct mrs as [m [] []]; cbn; congruence. Qed.

(** A mantissa of one digit too many whose last digit is 0 loses that digit
    and nothing else. *)
Lemma binary_round_aux_even sx m e :
  Zdigits2 (Zpos m) = prec ->
  fexp prec emax (prec + 1 + e) = e + 1 ->
  e + 1 <= emax - prec ->
  binary_round_aux prec emax sx (Zpos m~0) e loc_Exact = S754_finite sx m (e + 1).
Proof.
  intros Hd Hf Hmax. unfold binary_round_aux.
  assert (Zdigits2 (Zpos m~0) = prec + 1) as Hd2.
  { cbn [Zdigits2 digits2_pos] in *. lia. }
  destruct (shr_fexp_spec prec emax (Zpos m~0) e loc_Exact ltac:(lia)) as (He1 & Hm1 & Hx1).
  rewrite Hd2, Hf in He1, Hm1, Hx1.
  replace (Z.max 0 (e + 1 - e)) with 1 in * by lia.
  change (2 ^ 1) with 2 in *.
  replace (Zpos m~0 / 2) with (Zpos m) in Hm1
    by (apply Z.div_unique with 0; lia).
  replace (Zpos m~0 mod 2) with 0 in Hx1
    by (apply Z.mod_unique with (Zpos m); lia).
  cbn [loc_exact andb Z.eqb] in Hx1.
  destruct (shr_fexp prec emax (Zpos m~0) e loc_Exact) as [mrs1 e1]. cbn [fst snd] in *.
  rewrite (loc_of_nothing_lost _ Hx1), Hm1. cbn [round_nearest_even]. subst e1.
  destruct (shr_fexp_spec prec emax (Zpos m) (e + 1) loc_Exact ltac:(lia)) as (He2 & Hm2 & _).
  rewrite Hd in He2, Hm2.
  replace (prec + (e + 1)) with (prec + 1 + e) in * by lia. rewrite Hf in He2, Hm2.
  replace (Z.max 0 (e + 1 - (e + 1))) with 0 in * by lia.
  rewrite Z.pow_0_r, Z.div_1_r in Hm2.
  destruct (shr_fexp prec emax (Zpos m) (e + 1) loc_Exact) as [mrs2 e2]. cbn [fst snd] in *.
  rewrite Hm2. replace e2 with (e + 1) by lia.
  destruct (Z.leb_spec (e + 1) (emax - prec)); [reflexivity|lia].
Qed.

(** The quotient of a file size below 2^53 by 2^20, as the division computes it. *)
Lemma int_truediv_megabytes (p : positive) :
  Zpos p < 2 ^ 53 ->
  let d := Zdigits2 (Zpos p) in
  Py.int_truediv (Zpos p) BYTES_TO_MB
  = Ok (S754_finite false (Z.to_pos (Zpos p * 2 ^ (53 - d))) (d - 73)).
Proof.
  intros Hlt d.
  assert (1 <= d <= 53) as Hd.
  { subst d. split; [cbn; lia|]. apply Zdigits2_le; lia. }
  unfold Py.int_truediv.
  change (Z.eqb BYTES_TO_MB 0) with false. change (Z.eqb (Zpos p) 0) with false.
  change (Z.ltb (Zpos p) 0) with false. change (Z.ltb BYTES_TO_MB 0) with false.
  change (Z.abs (Zpos p)) with (Zpos p). change (Z.abs BYTES_TO_MB) with 1048576.
  cbv beta iota. cbn [xorb].
  unfold SFdiv_core_binary. change (Zdigits2 1048576) with 21. fold d.
  replace (Z.min (fexp prec emax (d + 0 - (21 + 0))) (0 - 0)) with (d - 74)
    by (unfold fexp, emin, prec, emax; lia).
  replace (0 - 0 - (d - 74)) with (74 - d) by lia.
  assert (match 74 - d with
          | 0 => Zpos p
          | Zpos _ => Z.shiftl (Zpos p) (74 - d)
          | Zneg _ => 0
          end = Zpos p * 2 ^ (54 - d) * 1048576) as ->.
  { destruct (74 - d) as [|s|s] eqn:Es; try lia.
    rewrite Z.shiftl_mul_pow2 by lia. rewrite <- Es.
    replace (74 - d) with ((54 - d) + 20) by lia.
    rewrite Z.pow_add_r by lia. change (2 ^ 20) with 1048576. lia. }
  assert (Z.div_eucl (Zpos p * 2 ^ (54 - d) * 1048576) 1048576
          = (Zpos p * 2 ^ (54 - d), 0)) as ->.
  { pose proof (Z.div_mul (Zpos p * 2 ^ (54 - d)) 1048576 ltac:(lia)) as Hq.
    pose proof (Z.mod_mul (Zpos p * 2 ^ (54 - d)) 1048576 ltac:(lia)) as Hr.
    unfold Z.div, Z.modulo in Hq, Hr.
    destruct (Z.div_eucl _ _) as [q r]. cbn [fst snd] in *. congruence. }
  change (new_location 1048576 0) with loc_Exact.
  assert (0 < 2 ^ (53 - d)) as Hpow by (apply Z.pow_pos_nonneg; lia).
  assert (Zpos p * 2 ^ (54 - d) = Zpos (Z.to_pos (Zpos p * 2 ^ (53 - d)))~0) as ->.
  { rewrite (Pos2Z.inj_xO (Z.to_pos (Zpos p * 2 ^ (53 - d)))), Z2Pos.id by lia.
    replace (54 - d) with (1 + (53 - d)) by lia.
    rewrite Z.pow_add_r by lia. change (2 ^ 1) with 2. lia. }
  rewrite binary_round_aux_even.
  - replace (d - 74 + 1) with (d - 73) by lia. reflexivity.
  - rewrite Z2Pos.id by lia. apply Zdigits2_unique; [unfold prec; lia|].
    unfold prec. destruct (Zdigits2_bounds p) as [Hlo Hhi]. fold d in Hlo, Hhi.
    split.
    + replace (53 - 1) with ((d - 1) + (53 - d)) by lia.
      rewrite Z.pow_add_r by lia. nia.
    + replace (2 ^ 53) with (2 ^ d * 2 ^ (53 - d))
        by (rewrite <- Z.pow_add_r by lia; f_equal; lia).
      nia.
  - unfold fexp, emin, prec, emax. lia.
  - unfold prec, emax. lia.
Qed.

Lemma value_scaled (m : positive) (k n : Z) (den : positive) :
  0 < k -> Zpos m * Zpos den = n * 2 ^ k ->
  (inject_Z (Zpos m) * Qpower 2 (- k) == n # den)%Q.
Proof.
  intros Hk Heq.
  assert (0 < 2 ^ k) as Hp by (apply Z.pow_pos_nonneg; lia).
  rewrite Qpower_opp. change 2%Q with (inject_Z 2).
  rewrite <- Zpower_Qpower by lia.
  destruct (2 ^ k) as [|q|q] eqn:Eq; try lia.
  unfold Qeq, Qmult, Qinv, inject_Z. cbn [Qnum Qden].
  rewrite Pos2Z.inj_mul. lia.
Qed.

(** X7. A byte count below 2^53 divided by [BYTES_TO_MB] is a float whose
    value is the quotient itself: the division that gives [file_size] and
    [memory_usage_peak] rounds nothing away and cannot fail. *)
Theorem file_size_exact (size : Z) :
  0 <= size < 2 ^ 53 ->
  exists f q,
    Py.int_truediv size BYTES_TO_MB = Ok f /\
    value f = Some q /\ (q == size # 1048576)%Q.
Proof.
  intros [H0 Hlt]. destruct size as [|p|p]; [|clear H0|lia].
  - exists zero, 0%Q. repeat split.
  - assert (1 <= Zdigits2 (Zpos p) <= 53) as Hd.
    { split; [cbn; lia|]. apply Zdigits2_le; lia. }
    rewrite (int_truediv_megabytes p Hlt). cbv zeta.
    set (d := Zdigits2 (Zpos p)) in *.
    assert (0 < 2 ^ (53 - d)) as Hpow by (apply Z.pow_pos_nonneg; lia).
    eexists; eexists. split; [reflexivity|]. split; [reflexivity|].
    replace (d - 73) with (- (73 - d)) by lia.
    apply value_scaled; [lia|].
    rewrite Z2Pos.id by lia.
    replace (73 - d) with ((53 - d) + 20) by lia.
    rewrite Z.pow_add_r by lia. change (2 ^ 20) with 1048576. lia.
Qed.

(** On floats that the hardware can hold, [<=] compares the values. *)
Lemma leb_value ma ea mb eb :
  valid (S754_finite false ma ea) = true ->
  valid (S754_finite false mb eb) = true ->
  leb (S754_finite false mb eb) (S754_finite false ma ea) = true ->
  eb <= ea /\ Zpos mb <= Zpos ma * 2 ^ (ea - eb).
Proof.
  unfold valid, valid_binary, bounded, canonical_mantissa.
  intros Ha Hb Hle.
  apply andb_prop in Ha as [Ha _]. apply andb_prop in Hb as [Hb _].
  apply Z.eqb_eq in Ha, Hb.
  unfold leb, SFleb in Hle. cbn [SFcompare] in Hle.
  destruct (Z.compare_spec eb ea) as [-> | Hlt | Hgt]; [| |discriminate Hle].
  - split; [lia|]. rewrite Z.sub_diag, Z.pow_0_r.
    pose proof (Pos.compare_spec mb ma) as Hc. unfold Pos.compare in Hc.
    destruct Hc; try discriminate Hle; lia.
  - split; [lia|].
    assert (Zpos (digits2_pos mb) + eb < Zpos (digits2_pos ma) + ea) as Hd.
    { destruct (Z.lt_ge_cases (Zpos (digits2_pos mb) + eb) (Zpos (digits2_pos ma) + ea))
        as [|Hge]; [assumption|].
      apply (fexp_mono prec emax) in Hge. lia. }
    destruct (Zdigits2_bounds mb) as [_ Hhi]. destruct (Zdigits2_bounds ma) as [Hlo _].
    cbn [Zdigits2] in Hhi, Hlo.
    assert (2 ^ Zpos (digits2_pos mb)
            <= 2 ^ (Zpos (digits2_pos ma) - 1) * 2 ^ (ea - eb)) as Hp.
    { rewrite <- Z.pow_add_r by lia. apply Z.pow_le_mono_r; lia. }
    assert (0 < 2 ^ (ea - eb)) by (apply Z.pow_pos_nonneg; lia).
    nia.
Qed.

Lemma positive_finite a :
  Py.gt0 a = true -> is_finite a = true -> exists m e, a = S754_finite false m e.
Proof. destruct a as [[]|[]| |[] m e]; try discriminate; eauto. Qed.

Lemma in_unit_interval_zero : in_unit_interval zero = true.
Proof. reflexivity. Qed.

(** X8. For samples the hardware can hold, with the first above zero and the
    second not below, the garbage collection percentage is the text "0%" or
    the formatting of a ratio between 0 and 1, both included: the difference,
    rounded, does not exceed the first sample, and the quotient, rounded,
    does not exceed 1. The division cannot fail. *)
Theorem gc_percentage_in_unit_interval (a b : float) :
  valid a = true -> is_finite a = true -> Py.gt0 a = true ->
  nonneg b = true ->
  in_unit_interval (shown_ratio (sub a b) a) = true /\
  percentage_cell (sub a b) a
  = Ok (PyStr (if Py.gt0 (sub a b)
               then Py.format_2pct (shown_ratio (sub a b) a) else "0%"%string)).
Proof.
  intros Hv Hf Hgt Hb.
  destruct (positive_finite a Hgt Hf) as (ma & ea & ->).
  unfold shown_ratio, percentage_cell, Py.float_truediv. cbn [is_zero].
  destruct (Py.gt0 (sub (S754_finite false ma ea) b)) eqn:Ht; [|split; reflexivity].
  split; [|reflexivity].
  destruct (sub_at_most ma ea b Hv Hb Ht) as (m & e & -> & He & Hm).
  apply one_at_most. now apply div_at_most_one.
Qed.

(** X9. The conversion percentage divides the difference of the second and
    third sample by the first. It is the text "0%" or the formatting of a ratio
    between 0 and 1 whenever the second sample does not exceed the first. *)
Theorem conversion_percentage_in_unit_interval (a b c : float) :
  valid a = true -> is_finite a = true -> Py.gt0 a = true ->
  valid b = true -> nonneg b = true -> nonneg c = true ->
  leb b a = true ->
  in_unit_interval (shown_ratio (sub b c) a) = true /\
  percentage_cell (sub b c) a
  = Ok (PyStr (if Py.gt0 (sub b c)
               then Py.format_2pct (shown_ratio (sub b c) a) else "0%"%string)).
Proof.
  intros Hva Hfa Hgt Hvb Hb Hc Hle.
  destruct (positive_finite a Hgt Hfa) as (ma & ea & ->).
  unfold shown_ratio, percentage_cell, Py.float_truediv. cbn [is_zero].
  destruct (Py.gt0 (sub b c)) eqn:Ht; [|split; reflexivity].
  split; [|reflexivity].
  destruct b as [sb|sb| |[] mb eb]; try discriminate Hb.
  - destruct sb, c as [[]|[]| |[] mc ec]; try discriminate Hc; discriminate Ht.
  - destruct (sub_at_most mb eb c Hvb Hc Ht) as (m & e & -> & He & Hm).
    destruct (leb_value ma ea mb eb Hva Hvb Hle) as [Heb Hmb].
    apply one_at_most, div_at_most_one; [lia|].
    replace (ea - e) with ((ea - eb) + (eb - e)) by lia.
    rewrite Z.pow_add_r by lia.
    assert (0 < 2 ^ (eb - e)) by (apply Z.pow_pos_nonneg; lia). nia.
Qed.

Lemma file_size_exact_witness :
  exists f q,
    Py.int_truediv 10485760 BYTES_TO_MB = Ok f /\
    value f = Some q /\ (q == 10485760 # 1048576)%Q.
Proof. apply (file_size_exact 10485760). lia. Defined.

Lemma gc_percentage_in_unit_interval_witness :
  in_unit_interval (shown_ratio (sub (of_Z 3) (of_Z 1)) (of_Z 3)) = true.
Proof.
  apply (gc_percentage_in_unit_interval (of_Z 3) (of_Z 1)); vm_compute; reflexivity.
Defined.

Lemma conversion_percentage_in_unit_interval_witness :
  in_unit_interval (shown_ratio (sub (of_Z 2) (of_Z 1)) (of_Z 3)) = true.
Proof.
  apply (conversion_percentage_in_unit_interval (of_Z 3) (of_Z 2) (of_Z 1));
    vm_compute; reflexivity.
Defined.

End Numbers.

(** ** Notices *)

(** X10. A notice is printed exactly when the command is not [read], [write]
    or [generate] is set, an input file is named and both counts are
    integers, although the notice uses none of them. The run then returns
    normally and the notice is all it does, [write] going before
    [generate]. *)
Theorem notice_needs_file_and_counts (w : World) (args : docopt_arguments) :
  let st := snd (run w args) in
  (printed_notices (trace st) <> [] <->
   arg_read args = false /\ arg_write args || arg_generate args = true /\
   Py.falsy (arg_input_file args) = false /\
   (exists i, Py.int (arg_iterations args) = Ok i) /\
   (exists k, Py.int (arg_warmups args) = Ok k)) /\
  (printed_notices (trace st) <> [] ->
   fst (run w args) = Ok tt /\
   trace st = [EPrint (if arg_write args then "Write feature is not supported yet"
                       else "Generate feature is not supported yet")]).
Proof.
  destruct (run w args) as [r st] eqn:H. cbn [fst snd].
  case_run H; cbn [trace printed_notices flat_map app orb];
    (split;
     [split;
      [intros Hne; try (now contradiction Hne); repeat split; eauto
      |intros (Hr & Hwg & Hf & (i & Hi) & (k & Hk));
       try discriminate Hr; try discriminate Hwg; try discriminate Hf;
       try discriminate Hi; try discriminate Hk; discriminate]
     |intros Hne; try (now contradiction Hne); split; reflexivity]).
Qed.

(** ** Integers as floats *)

Section NoUnderflow.

Local Open Scope Z_scope.

Variables prc emx : Z.
Hypothesis prc_pos : 0 < prc.




End NoUnderflow.

Section IntegerToFloat.

Local Open Scope Z_scope.



End IntegerToFloat.

(** ** Divisions by zero *)




(** ** Counts below zero *)

Lemma binary_round_aux_sign prc emx mx ex lx :
  (0 <= mx)%Z ->
  negative_sign (binary_round_aux prc emx true mx ex lx) = true.
Proof.
  intros Hm. unfold binary_round_aux.
  destruct (shr_fexp_spec prc emx mx ex lx Hm) as (_ & Hm1 & _).
  destruct (shr_fexp prc emx mx ex lx) as [mrs1 e1]. cbn [fst snd] in *.
  pose proof (round_nearest_even_bounds (shr_m mrs1) (loc_of_shr_record mrs1)) as [Hr _].
  assert (0 <= shr_m mrs1)%Z as H1.
  { rewrite Hm1. apply Z.div_pos; [lia|]. apply Z.pow_pos_nonneg; lia. }
  destruct (shr_fexp_spec prc emx (round_nearest_even (shr_m mrs1) (loc_of_shr_record mrs1))
              e1 loc_Exact ltac:(lia)) as (_ & Hm2 & _).
  destruct (shr_fexp prc emx _ e1 loc_Exact) as [mrs2 e2]. cbn [fst snd] in *.
  assert (0 <= shr_m mrs2)%Z as H2.
  { rewrite Hm2. apply Z.div_pos; [lia|]. apply Z.pow_pos_nonneg; lia. }
  destruct (shr_m mrs2); [reflexivity| |lia].
  destruct (Z.leb e2 (emx - prc)); reflexivity.
Qed.

(** The mean of a reading that is not negative over a count below zero has
    its sign bit set. *)
Lemma float_truediv_int_negative t n r :
  (n < 0)%Z -> is_finite t = true -> negative_sign t = false ->
  Py.float_truediv_int t n = Ok r ->
  negative_sign r = true.
Proof.
  intros Hn Hf Hs. unfold Py.float_truediv_int, Py.float_truediv.
  destruct n as [|p|p]; try lia.
  assert (negative_sign (of_Z (Zneg p)) = true) as Hy.
  { unfold of_Z, binary_normalize, binary_round.
    destruct (shl_align p 0 _) as [mz ez]. apply binary_round_aux_sign. lia. }
  destruct (of_Z (Zneg p)) as [sy|sy| |sy my ey]; try discriminate;
    cbn [negative_sign] in Hy; subst sy; cbn [is_zero]; try discriminate.
  intros H. inversion H as [Hr]. clear H.
  destruct t as [st|st| |st mt et]; try discriminate Hf; cbn [negative_sign] in Hs; subst st.
  - reflexivity.
  - unfold div, SFdiv, SFdiv_core_binary. cbn [xorb].
    set (m' := match (et - ey - _)%Z with
               | Z0 => Zpos mt | Zpos _ => Z.shiftl (Zpos mt) _ | Zneg _ => 0%Z end).
    assert (0 <= m')%Z as Hm'.
    { subst m'. destruct (et - ey - _)%Z; try lia. apply Z.shiftl_nonneg. lia. }
    assert (Z.div_eucl m' (Zpos my) = (m' / Zpos my, m' mod Zpos my)%Z) as ->.
    { unfold Z.div, Z.modulo. now destruct (Z.div_eucl m' (Zpos my)). }
    apply binary_round_aux_sign. apply Z.div_pos; lia.
Qed.

Lemma format_2e_negative r :
  negative_sign r = true -> String.prefix "-" (Py.format_2e r) = true.
Proof.
  destruct r as [[]|[]| |[] m e]; try discriminate; intros _; try reflexivity.
  unfold Py.format_2e. destruct (Py.fraction m e) as [n d].
  change (Py.sign_prefix true ++ Py.sci2 n d) with (String "-" (Py.sci2 n d)).
  cbn [String.prefix]. destruct (ascii_dec "-" "-"); [|congruence].
  destruct (Py.sci2 n d); reflexivity.
Qed.

(** X12. The counts are not checked for their sign. With [--iterations] below
    zero and clock readings that are finite and not negative, a read run that
    returns normally divides each reading by the negative count: the
    total_time and execution_time cells of its table show numbers with a
    minus sign. *)
Theorem negative_iterations_flip_sign (w : World) (args : docopt_arguments)
    (st : state) (n : Z) :
  arg_read args = true ->
  Py.int (arg_iterations args) = Ok n ->
  (n < 0)%Z ->
  (forall k t, (3 <= k <= 5)%nat -> timeit_result w k = Some t ->
               is_finite t = true /\ negative_sign t = false) ->
  run w args = (Ok tt, st) ->
  exists row,
    printed_tables (trace st) = [[header; row]] /\
    shows_negative (nth 1 row (PyInt 0)) = true /\
    shows_negative (nth 2 row (PyInt 0)) = true.
Proof.
  intros Hread Hit Hn Hclock Hrun.
  destruct (read_run_ok w args st Hread Hrun) as (m & _ & Hit' & _ & Hm & Ht).
  rewrite Hit in Hit'. inversion Hit' as [En].
  destruct Hm as (_ & _ & _ & (ta & Hta & Ha) & (tb & Htb & Hb) & _).
  rewrite <- En in Ha, Hb.
  destruct (Hclock 3%nat ta ltac:(lia) Hta) as [Hfa Hsa].
  destruct (Hclock 4%nat tb ltac:(lia) Htb) as [Hfb Hsb].
  exists (row_of m). rewrite Ht. split; [apply printed_tables_profiling|].
  unfold row_of, report_row. cbn [nth shows_negative].
  split; apply format_2e_negative;
    [apply (float_truediv_int_negative ta n) | apply (float_truediv_int_negative tb n)];
    assumption.
Qed.

Lemma negative_iterations_flip_sign_witness :
  exists row,
    printed_tables (trace (snd (run example_world (docopt_read None "10" "-10" "data.ion"))))
    = [[header; row]] /\
    shows_negative (nth 1 row (PyInt 0)) = true /\
    shows_negative (nth 2 row (PyInt 0)) = true.
Proof.
  apply (negative_iterations_flip_sign example_world
           (docopt_read None "10" "-10" "data.ion") _ (-10)).
  - reflexivity.
  - vm_compute; reflexivity.
  - reflexivity.
  - intros k t Hk Ht.
    assert (k = 3 \/ k = 4 \/ k = 5)%nat as [-> | [-> | ->]] by lia;
      vm_compute in Ht; inversion Ht; split; reflexivity.
  - vm_compute; reflexivity.
Defined.

(** ** What the three variants compare *)

Lemma append_inj_l (s a b : string) : s ++ a = s ++ b -> a = b.
Proof.
  induction s as [|c s IH]; cbn; intros H; [assumption|].
  inversion H. auto.
Qed.

Lemma test_code_differs file :
  generate_simpleion_load_test_code file false false
  <> generate_simpleion_load_test_code file false true.
Proof.
  unfold generate_simpleion_load_test_code. intros H.
  apply (append_inj_l "with open(") in H. apply (append_inj_l Py.dquote) in H.
  apply (append_inj_l file) in H. vm_compute in H. discriminate H.
Qed.

(** X13. In every read run that returns normally, [timeit] is called six
    times, the three warm-ups first and the three timed loops in the same
    order. The statements and setups are those generated for the input file:
    the first two variants run one and the same statement, with
    [emit_bare_values=False], and differ in the setup only; the last two share
    the setup and run statements that are generated with the same file and the
    same [single_value=False] and differ in [emit_bare_values] only; and the
    two statements, like the two setups, are different texts whatever the
    name of the file. Each overhead is the difference of two loops that
    differ in one respect. *)
Theorem variants_differ_in_one_respect (w : World) (args : docopt_arguments) (st : state) :
  arg_read args = true ->
  run w args = (Ok tt, st) ->
  exists file iterations warmups,
    arg_input_file args = Some file /\
    Py.int (arg_iterations args) = Ok iterations /\
    Py.int (arg_warmups args) = Ok warmups /\
    let stmt := generate_simpleion_load_test_code file false false in
    let stmt_raw := generate_simpleion_load_test_code file false true in
    let setup_gc := generate_simpleion_load_setup true in
    let setup_no_gc := generate_simpleion_load_setup false in
    timeit_events (trace st)
    = [ETimeit stmt setup_gc warmups;
       ETimeit stmt setup_no_gc warmups;
       ETimeit stmt_raw setup_no_gc warmups;
       ETimeit stmt setup_gc iterations;
       ETimeit stmt setup_no_gc iterations;
       ETimeit stmt_raw setup_no_gc iterations] /\
    stmt <> stmt_raw /\ setup_gc <> setup_no_gc.
Proof.
  intros Hread Hrun.
  destruct (read_run_ok w args st Hread Hrun) as (m & Hfile & Hit & Hwu & _ & Ht).
  exists (r_file m), (r_iterations m), (r_warmups m).
  do 3 (split; [assumption|]). cbv zeta.
  rewrite Ht. split; [reflexivity|].
  split; [apply test_code_differs|discriminate].
Qed.

Lemma variants_differ_in_one_respect_witness :
  timeit_events (trace example_final)
  = [ETimeit (generate_simpleion_load_test_code "data.ion" false false)
             (generate_simpleion_load_setup true) 10;
     ETimeit (generate_simpleion_load_test_code "data.ion" false false)
             (generate_simpleion_load_setup false) 10;
     ETimeit (generate_simpleion_load_test_code "data.ion" false true)
             (generate_simpleion_load_setup false) 10;
     ETimeit (generate_simpleion_load_test_code "data.ion" false false)
             (generate_simpleion_load_setup true) 10;
     ETimeit (generate_simpleion_load_test_code "data.ion" false false)
             (generate_simpleion_load_setup false) 10;
     ETimeit (generate_simpleion_load_test_code "data.ion" false true)
             (generate_simpleion_load_setup false) 10].
Proof.
  destruct (variants_differ_in_one_respect example_world example_read example_final)
    as (file & i & k & Hfile & Hi & Hk & Ht & _).
  - reflexivity.
  - vm_compute; reflexivity.
  - assert (Some "data.ion" = Some file) as Ef by exact Hfile.
    assert (Ok 10 = Ok i) as Ei by (rewrite <- Hi; vm_compute; reflexivity).
    assert (Ok 10 = Ok k) as Ek by (rewrite <- Hk; vm_compute; reflexivity).
    inversion Ef. inversion Ei. inversion Ek. subst. exact Ht.
Defined.
